(** * Surfingkeys CDP examples: the extension bridge and the CDP client

    A shallow embedding of [docs/examples/cdp-e2e-test.py] (the HTTP bridge
    server, the bridge client [ExtensionBridge], the automation client
    [CDPClient] and the orchestrator [run_test]), of [send_key] and
    [get_active_tab] from [docs/examples/cdp-send-sequence.py], of the script
    [docs/examples/cdp-direct-bg.py], of the message handler and the target
    filter of [docs/examples/cdp-console-logger.py], and of [main] from
    [docs/examples/cdp-inspect-buttons-v2.py].

    Conventions of the embedding:
    - JSON values are an inductive type, numbers being integers; a Python
      [dict] with string keys is an association list in insertion order;
    - the module globals [command_queue] (a list) and [response_dict] (a dict
      keyed by any hashable JSON scalar) form the record [bridge];
    - a call that may raise returns an [outcome]; state changes made before
      the exception persist, as in Python;
    - wall-clock time is an integer number of milliseconds. *)

From Stdlib Require Import ZArith List Lia.
From stdpp Require Import base option list strings countable gmap.

Set Warnings "-register-all".

Open Scope string_scope.
Open Scope list_scope.
Open Scope Z_scope.

(** ** JSON values and Python's view of them *)

Inductive json : Type :=
| JNull
| JBool (b : bool)
| JNum (n : Z)
| JStr (s : string)
| JArr (xs : list json)
| JObj (kvs : list (string * json)).

Definition pydict := list (string * json).

(** [d.get(k)] on the association list. *)
Fixpoint dict_get (k : string) (d : pydict) : option json :=
  match d with
  | [] => None
  | (k', v) :: d' => if String.eqb k k' then Some v else dict_get k d'
  end.

(** [d[k] = v]: replaces in place, or appends a new key. *)
Fixpoint dict_set (k : string) (v : json) (d : pydict) : pydict :=
  match d with
  | [] => [(k, v)]
  | (k', v') :: d' =>
      if String.eqb k k' then (k, v) :: d' else (k', v') :: dict_set k v d'
  end.

(** Python truth value of a JSON value ([if x:], [x or y]). *)
Definition truthy (j : json) : bool :=
  match j with
  | JNull => false
  | JBool b => b
  | JNum n => negb (n =? 0)
  | JStr s => negb (String.eqb s "")
  | JArr xs => match xs with [] => false | _ => true end
  | JObj kvs => match kvs with [] => false | _ => true end
  end.

(** [a or b]. *)
Definition py_or (a b : json) : json := if truthy a then a else b.

(** Python [==] on JSON values: [True == 1], dicts compare as mappings. *)
Fixpoint py_eq (a b : json) {struct a} : bool :=
  match a, b with
  | JNull, JNull => true
  | JBool x, JBool y => Bool.eqb x y
  | JBool x, JNum n => Z.b2z x =? n
  | JNum n, JBool x => n =? Z.b2z x
  | JNum m, JNum n => m =? n
  | JStr s, JStr t => String.eqb s t
  | JArr xs, JArr ys =>
      (fix go (xs ys : list json) {struct xs} : bool :=
         match xs, ys with
         | [], [] => true
         | x :: xs', y :: ys' => py_eq x y && go xs' ys'
         | _, _ => false
         end) xs ys
  | JObj kvs, JObj kvs' =>
      Nat.eqb (length kvs) (length kvs') &&
      (fix go (kvs : pydict) {struct kvs} : bool :=
         match kvs with
         | [] => true
         | (k, v) :: rest =>
             match dict_get k kvs' with
             | Some v' => py_eq v v' && go rest
             | None => false
             end
         end) kvs
  | _, _ => false
  end.

(** Keys of a Python dict: hashable scalars, with [True]/[False] hashing and
    comparing as [1]/[0]. *)
Inductive pykey : Type :=
| KNone
| KInt (n : Z)
| KStr (s : string).

#[global] Instance pykey_eq_dec : EqDecision pykey.
Proof. solve_decision. Defined.

Definition pykey_enc (k : pykey) : option (Z + string) :=
  match k with
  | KNone => None
  | KInt n => Some (inl n)
  | KStr s => Some (inr s)
  end.

Definition pykey_dec (o : option (Z + string)) : pykey :=
  match o with
  | None => KNone
  | Some (inl n) => KInt n
  | Some (inr s) => KStr s
  end.

#[global] Instance pykey_countable : Countable pykey.
Proof.
  refine (inj_countable' pykey_enc pykey_dec _).
  intros []; reflexivity.
Defined.

(** [hash(x)]: lists and dicts are unhashable. *)
Definition py_hash (j : json) : option pykey :=
  match j with
  | JNull => Some KNone
  | JBool b => Some (KInt (Z.b2z b))
  | JNum n => Some (KInt n)
  | JStr s => Some (KStr s)
  | JArr _ | JObj _ => None
  end.

(** ** Exceptions and outcomes *)

Inductive exn : Type :=
| KeyError (k : string)
| TypeError
| AttributeError
| TimeoutError (msg : string)
| Exception (arg : json)
| JSONDecodeError
| ConnectionRefusedError
| WebSocketConnectionClosedException.

(** Every exception above is caught by [except Exception]. *)
Definition is_Exception (e : exn) : bool := true.

Inductive outcome (A : Type) : Type :=
| Returns (a : A)
| Raises (e : exn)
| Blocks.
Arguments Returns {A} a.
Arguments Raises {A} e.
Arguments Blocks {A}.

(** [d[k]] on a JSON value. *)
Definition subscript (d : json) (k : string) : outcome json :=
  match d with
  | JObj kvs =>
      match dict_get k kvs with
      | Some v => Returns v
      | None => Raises (KeyError k)
      end
  | _ => Raises TypeError
  end.

(** ** The HTTP bridge server *)

Record bridge : Type := Bridge {
  command_queue : list json;
  response_dict : gmap pykey json
}.

Definition bridge_init : bridge := Bridge [] ∅.

(** [GET /get_command]: the reply body and the new state. *)
Definition get_command (b : bridge) : json * bridge :=
  match command_queue b with
  | cmd :: rest => (cmd, Bridge rest (response_dict b))
  | [] => (JNull, b)
  end.

Definition status_ok : json := JObj [("status", JStr "ok")].

(** [POST /post_response] with JSON body [data]. The right-hand side
    [data['result']] is evaluated before the subscript [data['id']]. *)
Definition post_response (data : json) (b : bridge) : outcome json * bridge :=
  match subscript data "result" with
  | Returns r =>
      match subscript data "id" with
      | Returns i =>
          match py_hash i with
          | Some k =>
              (Returns status_ok,
               Bridge (command_queue b) (<[k := r]> (response_dict b)))
          | None => (Raises TypeError, b)
          end
      | Raises e => (Raises e, b)
      | Blocks => (Blocks, b)
      end
  | Raises e => (Raises e, b)
  | Blocks => (Blocks, b)
  end.

(** The command object built by [ExtensionBridge.send_command]. *)
Definition command_obj (cmd_id command : string) (params : json) : json :=
  JObj [("id", JStr cmd_id); ("command", JStr command);
        ("params", py_or params (JObj []))].

(** [cmd['id']] of a queued command, when it has one. *)
Definition command_id (c : json) : option json :=
  match c with
  | JObj kvs => dict_get "id" kvs
  | _ => None
  end.

(** [command_queue.append(command_obj)]. *)
Definition enqueue (c : json) (b : bridge) : bridge :=
  Bridge (command_queue b ++ [c]) (response_dict b).

(** A well-formed submission: the body the extension posts. *)
Definition submission (i r : json) : json := JObj [("id", i); ("result", r)].

(** Requests reaching the server, in the order they are handled. *)
Inductive request : Type :=
| GetCommand
| PostResponse (data : json).

Definition handle (r : request) (b : bridge) : bridge :=
  match r with
  | GetCommand => snd (get_command b)
  | PostResponse data => snd (post_response data b)
  end.

Definition serve (rs : list request) (b : bridge) : bridge :=
  fold_left (fun b r => handle r b) rs b.

(** Queue traffic: enqueues by any client, claims by any poller. *)
Inductive queue_op : Type :=
| Enqueue (cmd_id command : string) (params : json)
| Claim.

(** Runs the operations in order; collects the non-empty claims. *)
Fixpoint run_queue (ops : list queue_op) (b : bridge) : list json * bridge :=
  match ops with
  | [] => ([], b)
  | Enqueue i c p :: ops' => run_queue ops' (enqueue (command_obj i c p) b)
  | Claim :: ops' =>
      match command_queue b with
      | [] => run_queue ops' (snd (get_command b))
      | _ :: _ =>
          let '(cmd, b') := get_command b in
          let '(got, b'') := run_queue ops' b' in
          (cmd :: got, b'')
      end
  end.

Fixpoint enqueued (ops : list queue_op) : list json :=
  match ops with
  | [] => []
  | Enqueue i c p :: ops' => command_obj i c p :: enqueued ops'
  | Claim :: ops' => enqueued ops'
  end.

Fixpoint enqueued_ids (ops : list queue_op) : list string :=
  match ops with
  | [] => []
  | Enqueue i _ _ :: ops' => i :: enqueued_ids ops'
  | Claim :: ops' => enqueued_ids ops'
  end.

(** ** A state-and-exception monad for the client-side code *)

Definition M (S A : Type) : Type := S -> outcome A * S.

Definition ret {S A} (a : A) : M S A := fun s => (Returns a, s).

Definition raise {S A} (e : exn) : M S A := fun s => (Raises e, s).

Definition bind {S A B} (c : M S A) (k : A -> M S B) : M S B :=
  fun s =>
    match c s with
    | (Returns a, s') => k a s'
    | (Raises e, s') => (Raises e, s')
    | (Blocks, s') => (Blocks, s')
    end.

Notation "x <~ c ;; k" := (bind c (fun x => k))
  (at level 20, c at level 99, k at level 200, only parsing).
Notation "'run' c ;; k" := (bind c (fun _ => k))
  (at level 20, c at level 99, k at level 200, only parsing).

(** A pure expression that may raise, run inside the monad. *)
Definition eval {S A} (o : outcome A) : M S A := fun s => (o, s).

(** [try: c except Exception as e: ...]: the handler sees [inl e]. *)
Definition try_except {S A} (c : M S A) : M S (exn + A) :=
  fun s =>
    match c s with
    | (Returns a, s') => (Returns (inr a), s')
    | (Raises e, s') =>
        if is_Exception e then (Returns (inl e), s') else (Raises e, s')
    | (Blocks, s') => (Blocks, s')
    end.

(** ** The CDP client *)

(** A text frame on the wire: the serialisation of a JSON value, or text
    that [json.loads] rejects. *)
Inductive frame : Type :=
| Text (j : json)
| Garbled (raw : string).

Definition json_dumps (j : json) : frame := Text j.

Definition json_loads (f : frame) : outcome json :=
  match f with
  | Text j => Returns j
  | Garbled _ => Raises JSONDecodeError
  end.

(** The socket: what was sent, what the remote end will deliver, and how
    often [close] was called. *)
Record websocket : Type := WebSocket {
  connected : bool;
  sent : list frame;
  incoming : list frame;
  closes : nat
}.

Record cdp_client : Type := CDP {
  ws : websocket;
  cmd_id : Z
}.

Definition ws_send (data : frame) : M cdp_client unit :=
  fun c =>
    let s := ws c in
    if connected s
    then (Returns tt,
          CDP (WebSocket true (sent s ++ [data]) (incoming s) (closes s))
              (cmd_id c))
    else (Raises WebSocketConnectionClosedException, c).

(** [ws.recv()] blocks while nothing has arrived. *)
Definition ws_recv : M cdp_client frame :=
  fun c =>
    let s := ws c in
    if connected s
    then match incoming s with
         | f :: rest =>
             (Returns f, CDP (WebSocket true (sent s) rest (closes s)) (cmd_id c))
         | [] => (Blocks, c)
         end
    else (Raises WebSocketConnectionClosedException, c).

Definition ws_close : M cdp_client unit :=
  fun c =>
    let s := ws c in
    (Returns tt,
     CDP (WebSocket false (sent s) (incoming s) (S (closes s))) (cmd_id c)).

Definition dispatchKeyEvent : string := "Input.dispatchKeyEvent".

Module CDPClient.

(** The request object of [send_command]. *)
Definition command (id : Z) (method : string) (params : json) : json :=
  JObj [("id", JNum id); ("method", JStr method);
        ("params", py_or params (JObj []))].

Definition send_command (method : string) (params : json)
  : M cdp_client json :=
  fun c =>
    let c := CDP (ws c) (cmd_id c + 1) in
    (run ws_send (json_dumps (command (cmd_id c) method params)) ;;
     f <~ ws_recv ;;
     response <~ eval (json_loads f) ;;
     ret response) c.

(** [send_key(key_name, text=None, code=None, key_code=None)];
    [None] is [JNull]. *)
Definition send_key (key_name text code key_code : json)
  : M cdp_client unit :=
  (* keyDown *)
  let params := [("type", JStr "keyDown"); ("key", key_name)] in
  let params := if truthy code then dict_set "code" code params else params in
  let params :=
    if truthy key_code
    then dict_set "nativeVirtualKeyCode" key_code
           (dict_set "windowsVirtualKeyCode" key_code params)
    else params in
  run send_command dispatchKeyEvent (JObj params) ;;
  (* char (only for printable characters) *)
  run (if truthy text
       then
         let params :=
           [("type", JStr "char"); ("text", text); ("key", key_name)] in
         run send_command dispatchKeyEvent (JObj params) ;; ret tt
       else ret tt) ;;
  (* keyUp *)
  let params := [("type", JStr "keyUp"); ("key", key_name)] in
  let params := if truthy code then dict_set "code" code params else params in
  let params :=
    if truthy key_code
    then dict_set "nativeVirtualKeyCode" key_code
           (dict_set "windowsVirtualKeyCode" key_code params)
    else params in
  run send_command dispatchKeyEvent (JObj params) ;; ret tt.

Definition close : M cdp_client unit := ws_close.

End CDPClient.

(** [send_key] of cdp-send-sequence.py: works on the bare socket, numbers the
    requests from [cmd_id_start] and discards the replies unparsed. *)
Module SendSequence.

Definition send (data : frame) : M websocket unit :=
  fun s =>
    if connected s
    then (Returns tt,
          WebSocket true (sent s ++ [data]) (incoming s) (closes s))
    else (Raises WebSocketConnectionClosedException, s).

Definition recv : M websocket frame :=
  fun s =>
    if connected s
    then match incoming s with
         | f :: rest => (Returns f, WebSocket true (sent s) rest (closes s))
         | [] => (Blocks, s)
         end
    else (Raises WebSocketConnectionClosedException, s).

Definition command (id : Z) (params : pydict) : json :=
  JObj [("id", JNum id); ("method", JStr dispatchKeyEvent);
        ("params", JObj params)].

Definition send_key (key_name text code key_code : json) (cmd_id_start : Z)
  : M websocket unit :=
  (* keyDown *)
  let params := [("type", JStr "keyDown"); ("key", key_name)] in
  let params := if truthy code then dict_set "code" code params else params in
  let params :=
    if truthy key_code
    then dict_set "nativeVirtualKeyCode" key_code
           (dict_set "windowsVirtualKeyCode" key_code params)
    else params in
  run send (json_dumps (command cmd_id_start params)) ;;
  run recv ;;
  (* char (only for printable characters) *)
  run (if truthy text
       then
         let params :=
           [("type", JStr "char"); ("text", text); ("key", key_name)] in
         run send (json_dumps (command (cmd_id_start + 1) params)) ;;
         run recv ;; ret tt
       else ret tt) ;;
  (* keyUp *)
  let params := [("type", JStr "keyUp"); ("key", key_name)] in
  let params := if truthy code then dict_set "code" code params else params in
  let params :=
    if truthy key_code
    then dict_set "nativeVirtualKeyCode" key_code
           (dict_set "windowsVirtualKeyCode" key_code params)
    else params in
  run send (json_dumps (command (cmd_id_start + 2) params)) ;;
  run recv ;; ret tt.

End SendSequence.

(** ** The process: server state, client object and environment *)

(** What happens during one [time.sleep]: the sleep may overrun by
    [overshoot] milliseconds, and the server thread handles [arrivals].
    This is the grain of the model: the requests of the server thread are
    placed in the sleeps of the client, and the time the client spends
    between two sleeps is counted in the overrun of the sleep before; the
    clock does not move between two statements that follow one another. *)
Record slot : Type := Slot {
  overshoot : nat;
  arrivals : list request
}.

Record world : Type := World {
  srv : bridge;                 (* command_queue, response_dict *)
  client : cdp_client;          (* the CDPClient object of run_test *)
  now : Z;                      (* time.time(), in milliseconds *)
  schedule : list slot;         (* one slot per future sleep *)
  uuid_source : nat -> string;  (* the n-th str(uuid.uuid4()) *)
  uuid_drawn : nat;             (* how many were drawn so far *)
  endpoint_up : bool            (* does the DevTools endpoint accept? *)
}.

Definition set_srv (f : bridge -> bridge) (w : world) : world :=
  World (f (srv w)) (client w) (now w) (schedule w)
        (uuid_source w) (uuid_drawn w) (endpoint_up w).

Definition set_client (c : cdp_client) (w : world) : world :=
  World (srv w) c (now w) (schedule w)
        (uuid_source w) (uuid_drawn w) (endpoint_up w).

(** Runs a method of the client object inside the process. *)
Definition on_client {A} (c : M cdp_client A) : M world A :=
  fun w => let '(o, c') := c (client w) in (o, set_client c' w).

(** [time.time()]: reads the clock. The clock advances in the sleeps only,
    by the time slept and the overrun of the slot, which also stands for
    the time spent by the statements up to the next sleep. *)
Definition time_time : M world Z := fun w => (Returns (now w), w).

(** [time.sleep(ms / 1000)]: at least [ms] elapse; the server thread runs.
    The requests it handles are those of the slot: a request that the real
    server handles between two sleeps of the client is placed in the sleep
    before or after. *)
Definition time_sleep (ms : Z) : M world unit :=
  fun w =>
    match schedule w with
    | [] =>
        (Returns tt,
         World (srv w) (client w) (now w + ms) []
               (uuid_source w) (uuid_drawn w) (endpoint_up w))
    | s :: rest =>
        (Returns tt,
         World (serve (arrivals s) (srv w)) (client w)
               (now w + ms + Z.of_nat (overshoot s)) rest
               (uuid_source w) (uuid_drawn w) (endpoint_up w))
    end.

(** [str(uuid.uuid4())]. *)
Definition uuid4_str : M world string :=
  fun w =>
    (Returns (uuid_source w (uuid_drawn w)),
     World (srv w) (client w) (now w) (schedule w)
           (uuid_source w) (S (uuid_drawn w)) (endpoint_up w)).

(** [d.get(k, default)] on a JSON value; only dicts have [get]. *)
Definition py_get (d : json) (k : string) (default : json) : outcome json :=
  match d with
  | JObj kvs => Returns (match dict_get k kvs with Some v => v | None => default end)
  | _ => Raises AttributeError
  end.

Module ExtensionBridge.

(** Loop iterations that can be needed: every sleep lasts 100 ms or more. *)
Definition wait_fuel (timeout : Z) : nat := S (Z.to_nat (timeout / 100)).

(** The loop [while cmd_id not in response_dict: ...] (lines 69-72): the
    table is tested first, then the clock is read and compared with the
    deadline, then the thread sleeps. Table and clock change in the sleep. *)
Fixpoint wait_response (fuel : nat) (cmd_id command : string)
    (start_time timeout : Z) (w : world) {struct fuel}
  : outcome unit * world :=
  match response_dict (srv w) !! KStr cmd_id with
  | Some _ => (Returns tt, w)
  | None =>
      if now w - start_time >? timeout
      then (Raises (TimeoutError ("Extension did not respond to " +:+ command)),
            w)
      else
        match fuel with
        | O => (Blocks, w)
        | S fuel' =>
            wait_response fuel' cmd_id command start_time timeout
              (snd (time_sleep 100 w))
        end
  end.

(** [response_dict.pop(cmd_id)]. *)
Definition pop_response (cmd_id : string) : M world json :=
  fun w =>
    match response_dict (srv w) !! KStr cmd_id with
    | Some r =>
        (Returns r,
         set_srv (fun b => Bridge (command_queue b)
                                  (delete (KStr cmd_id) (response_dict b))) w)
    | None => (Raises (KeyError cmd_id), w)
    end.

(** Lines 56-65: draw the id and queue the command. *)
Definition queue_command (command : string) (params : json) : M world string :=
  cmd_id <~ uuid4_str ;;
  let command_obj := command_obj cmd_id command params in
  fun w => (Returns cmd_id, set_srv (enqueue command_obj) w).

(** Lines 67-77: wait for the response, take it out of the table. *)
Definition await_response (cmd_id command : string) (timeout : Z)
  : M world json :=
  start_time <~ time_time ;;
  run wait_response (wait_fuel timeout) cmd_id command start_time timeout ;;
  response <~ pop_response cmd_id ;;
  ret response.

(** [send_command(command, params=None, timeout=5)], timeout in ms. *)
Definition send_command (command : string) (params : json) (timeout : Z)
  : M world json :=
  cmd_id <~ queue_command command params ;;
  await_response cmd_id command timeout.

Definition get_active_tab : M world json :=
  response <~ send_command "get_active_tab" JNull 5000 ;;
  success <~ eval (py_get response "success" JNull) ;;
  if truthy success
  then eval (subscript response "data")
  else
    error <~ eval (py_get response "error" (JStr "Unknown error")) ;;
    raise (Exception error).

Definition get_all_tabs : M world json :=
  response <~ send_command "get_all_tabs" JNull 5000 ;;
  success <~ eval (py_get response "success" JNull) ;;
  if truthy success
  then eval (subscript response "data")
  else
    error <~ eval (py_get response "error" (JStr "Unknown error")) ;;
    raise (Exception error).

End ExtensionBridge.

(** ** The orchestrator *)

(** [CDPClient(ws_url)]: [websocket.create_connection], then [cmd_id = 0]. *)
Definition CDPClient_init : M world unit :=
  fun w =>
    if endpoint_up w
    then
      let s := ws (client w) in
      (Returns tt,
       set_client (CDP (WebSocket true (sent s) (incoming s) (closes s)) 0) w)
    else (Raises ConnectionRefusedError, w).

(** Which report [run_test] printed before it returned. *)
Inductive report : Type :=
| CouldNotGetTab
| TestPassed
| TestFailed.

(** [run_test()]. The prints are left out, except that the subscripts inside
    their f-strings are evaluated, since they can raise. *)
Definition run_test : M world report :=
  (* [1] SETUP *)
  run CDPClient_init ;;
  run on_client (CDPClient.send_command "Page.bringToFront" JNull) ;;
  (* [2] PRE-STATE *)
  attempt <~ try_except
    (before_tab <~ ExtensionBridge.get_active_tab ;;
     run eval (subscript before_tab "title") ;;
     ret before_tab) ;;
  match attempt with
  | inl e => ret CouldNotGetTab
  | inr before_tab =>
      (* [3] ACTION *)
      run on_client
        (CDPClient.send_key (JStr "t") (JStr "t") (JStr "KeyT") (JNum 84)) ;;
      run time_sleep 500 ;;
      run on_client
        (CDPClient.send_key (JStr "ArrowDown") JNull (JStr "ArrowDown")
           (JNum 40)) ;;
      run time_sleep 500 ;;
      run on_client
        (CDPClient.send_key (JStr "Enter") JNull (JStr "Enter") (JNum 13)) ;;
      run time_sleep 500 ;;
      (* [4] POST-STATE *)
      run time_sleep 1000 ;;
      after_tab <~ ExtensionBridge.get_active_tab ;;
      run eval (subscript after_tab "title") ;;
      (* [5] VERIFICATION *)
      before_id <~ eval (subscript before_tab "id") ;;
      after_id <~ eval (subscript after_tab "id") ;;
      verdict <~
        (if negb (py_eq before_id after_id)
         then
           run eval (subscript before_tab "title") ;;
           run eval (subscript after_tab "title") ;;
           ret TestPassed
         else
           run eval (subscript before_tab "title") ;;
           ret TestFailed) ;;
      (* [6] CLEANUP *)
      run on_client CDPClient.close ;;
      ret verdict
  end.

(** ** Vocabulary for stating the properties *)

(** The [id] field of a request frame. *)
Definition request_id (f : frame) : option json :=
  match f with
  | Text (JObj kvs) => dict_get "id" kvs
  | _ => None
  end.

(** The [params] of a request frame. *)
Definition request_params (f : frame) : option json :=
  match f with
  | Text (JObj kvs) => dict_get "params" kvs
  | _ => None
  end.

(** The [type] of a key event. *)
Definition event_type (params : json) : option json :=
  match params with
  | JObj kvs => dict_get "type" kvs
  | _ => None
  end.

(** Calls made one after the other on a connection, each once the previous
    one has returned or raised; a call that blocks is the last one. *)
Fixpoint send_commands (calls : list (string * json)) (c : cdp_client)
  : cdp_client :=
  match calls with
  | [] => c
  | (method, params) :: rest =>
      match CDPClient.send_command method params c with
      | (Blocks, c') => c'
      | (_, c') => send_commands rest c'
      end
  end.

(** Requests [c'] has sent since [c]. *)
Definition sent_since (c c' : cdp_client) : list frame :=
  drop (length (sent (ws c))) (sent (ws c')).

(** The reading of [call] under which it waits for the reply that bears the
    id of the request and hands back the [result] field of that reply. *)
Definition call_returns_matching_result
    (c : cdp_client) (method : string) (params : json) : Prop :=
  forall v c',
    CDPClient.send_command method params c = (Returns v, c') ->
    exists reply,
      Text (JObj reply) ∈ incoming (ws c) /\
      dict_get "id" reply = Some (JNum (cmd_id c + 1)) /\
      dict_get "result" reply = Some v.

(** An event carries the identity of the key press: the key name, and the
    physical code and the legacy numeric code when the caller gave them. *)
Definition carries_identity (key_name code key_code params : json) : Prop :=
  exists kvs,
    params = JObj kvs /\
    dict_get "key" kvs = Some key_name /\
    (code <> JNull -> dict_get "code" kvs = Some code) /\
    (key_code <> JNull ->
     dict_get "windowsVirtualKeyCode" kvs = Some key_code).

(** The reading of [send_key] under which every event carries the whole
    identity and a given literal always yields a character event. *)
Definition key_press_as_specified
    (c : cdp_client) (key_name text code key_code : json) : Prop :=
  let c' := snd (CDPClient.send_key key_name text code key_code c) in
  let events := omap request_params (sent_since c c') in
  (text <> JNull ->
   omap event_type events = [JStr "keyDown"; JStr "char"; JStr "keyUp"]) /\
  (text = JNull -> omap event_type events = [JStr "keyDown"; JStr "keyUp"]) /\
  Forall (carries_identity key_name code key_code) events.

(** Parameters of the key-down and key-up events built by [send_key]. *)
Definition key_event (type : string) (key_name code key_code : json)
  : pydict :=
  [("type", JStr type); ("key", key_name)]
  ++ (if truthy code then [("code", code)] else [])
  ++ (if truthy key_code
      then [("windowsVirtualKeyCode", key_code);
            ("nativeVirtualKeyCode", key_code)]
      else []).

Definition char_event (key_name text : json) : pydict :=
  [("type", JStr "char"); ("text", text); ("key", key_name)].

(** The events of one key press, in order. *)
Definition key_press_events (key_name text code key_code : json)
  : list pydict :=
  [key_event "keyDown" key_name code key_code]
  ++ (if truthy text then [char_event key_name text] else [])
  ++ [key_event "keyUp" key_name code key_code].

(** Numbers requests from [first], one apart. *)
Fixpoint number_from (first : Z) (events : list pydict) : list frame :=
  match events with
  | [] => []
  | e :: rest =>
      Text (CDPClient.command first dispatchKeyEvent (JObj e))
      :: number_from (first + 1) rest
  end.

(** [n] consecutive request ids, starting at [first]. *)
Definition ids_from (first : Z) (n : nat) : list json :=
  (fun i => JNum (first + Z.of_nat i)) <$> seq 0 n.

(** A browser that answers every request with an empty result. *)
Definition reply (id : Z) : frame :=
  Text (JObj [("id", JNum id); ("result", JObj [])]).

Definition fresh_client (frames : list frame) : cdp_client :=
  CDP (WebSocket true [] frames 0) 0.

(** The browser reports a page event before it answers request 1. *)
Definition page_event : json :=
  JObj [("method", JStr "Page.frameStoppedLoading");
        ("params", JObj [("frameId", JStr "F1")])].

Definition client_with_event : cdp_client :=
  fresh_client [Text page_event; reply 1].

(** The key under which [post_response] files a body, when it accepts it. *)
Definition submission_key (data : json) : option pykey :=
  match subscript data "result", subscript data "id" with
  | Returns _, Returns i => py_hash i
  | _, _ => None
  end.

(** No request in [rs] submits a result for [k]. *)
Definition never_submits (k : pykey) (rs : list request) : Prop :=
  Forall (fun r => match r with
                   | PostResponse data => submission_key data <> Some k
                   | GetCommand => True
                   end) rs.

(** No result for [k] is in the table, and none will ever be submitted. *)
Definition never_submitted (k : pykey) (w : world) : Prop :=
  response_dict (srv w) !! k = None /\
  Forall (fun s => never_submits k (arrivals s)) (schedule w).

(** The requests the server handles during the next [n] sleeps. *)
Definition traffic (n : nat) (w : world) : list request :=
  concat (arrivals <$> take n (schedule w)).




(** How often the connection of the process was closed. *)
Definition closes_of (w : world) : nat := closes (ws (client w)).

(** [run_test] got as far as its cleanup step. *)
Definition reaches_cleanup (o : outcome report) : bool :=
  match o with
  | Returns TestPassed | Returns TestFailed => true
  | _ => false
  end.

(** A computation that never calls [close]. *)
Definition keeps_closes {A} (c : M world A) : Prop :=
  forall w, closes_of (snd (c w)) = closes_of w.

(** A computation that calls [close] once if it gets to the cleanup step,
    and not at all otherwise. *)
Definition closes_at_cleanup (c : M world report) : Prop :=
  forall w,
    closes_of (snd (c w)) =
    (closes_of w + (if reaches_cleanup (fst (c w)) then 1 else 0))%nat.

(** *** Concrete processes *)

Definition uuids (n : nat) : string :=
  match n with
  | O => "11111111-1111-4111-8111-111111111111"
  | S O => "22222222-2222-4222-8222-222222222222"
  | S (S _) => "33333333-3333-4333-8333-333333333333"
  end.

(** A browser that answers the eight requests of [run_test]. *)
Definition browser : cdp_client :=
  CDP (WebSocket false []
         [reply 1; reply 2; reply 3; reply 4; reply 5; reply 6; reply 7;
          reply 8] 0) 0.

Definition tab (id : Z) (title : string) : json :=
  JObj [("id", JNum id); ("title", JStr title)].

Definition success (data : json) : json :=
  JObj [("success", JBool true); ("data", data)].

Definition failure (error : string) : json :=
  JObj [("success", JBool false); ("error", JStr error)].

(** The extension polls, then answers the command with id [uuids n]. *)
Definition answers (n : nat) (result : json) : slot :=
  Slot 3 [GetCommand; PostResponse (submission (JStr (uuids n)) result)].

Definition idle : slot := Slot 0 [GetCommand].

(** The extension was not reloaded: nobody polls the bridge. *)
Definition world_no_extension : world :=
  World bridge_init browser 0 [] uuids 0 true.

(** The extension answers the first query and is gone for the second. *)
Definition world_extension_lost : world :=
  World bridge_init browser 0 [answers 0 (success (tab 7 "Google"))]
        uuids 0 true.

(** The extension answers both queries; the tab has changed. *)
Definition world_tab_switched : world :=
  World bridge_init browser 0
        [answers 0 (success (tab 7 "Google"));
         idle; idle; idle; idle;
         answers 1 (success (tab 8 "Wikipedia"))]
        uuids 0 true.

(** The poller is there, but answers another command only. *)
Definition world_other_answer : world :=
  World bridge_init browser 0
        [Slot 3 [GetCommand;
                 PostResponse (submission (JStr "stale") (success JNull))];
         idle]
        uuids 0 true.

(** The extension reports an error for the first query. *)
Definition world_extension_error : world :=
  World bridge_init browser 0 [answers 0 (failure "No active tab")]
        uuids 0 true.

(** ** The other example scripts *)

(** A byte that continues a UTF-8 sequence (10xxxxxx). *)
Definition is_continuation (a : Ascii.ascii) : bool :=
  let n := Ascii.nat_of_ascii a in
  (128 <=? n)%nat && (n <? 192)%nat.

(** The characters (code points) of a text, which a [string] holds as
    UTF-8: each leading byte with the continuation bytes that follow it. *)
Fixpoint code_points (s : string) : list string :=
  match s with
  | EmptyString => []
  | String a rest =>
      match code_points rest with
      | String c tail :: chars =>
          if is_continuation c
          then String a (String c tail) :: chars
          else String a EmptyString :: String c tail :: chars
      | chars => String a EmptyString :: chars
      end
  end.

(** [for x in v]: lists yield their items, dicts their keys, strings their
    characters; nothing else can be iterated. *)
Definition py_iter (v : json) : outcome (list json) :=
  match v with
  | JArr xs => Returns xs
  | JObj kvs => Returns ((fun kv => JStr (fst kv)) <$> kvs)
  | JStr s => Returns (JStr <$> code_points s)
  | _ => Raises TypeError
  end.

Fixpoint is_substring (needle hay : string) : bool :=
  String.prefix needle hay ||
  match hay with
  | EmptyString => false
  | String _ hay' => is_substring needle hay'
  end.

(** ["needle" in v]: a key of a dict, an item of a list, a part of a
    string. *)
Definition py_in (needle : string) (v : json) : outcome bool :=
  match v with
  | JObj kvs =>
      Returns (match dict_get needle kvs with Some _ => true | None => false end)
  | JArr xs => Returns (existsb (fun x => py_eq x (JStr needle)) xs)
  | JStr s => Returns (is_substring needle s)
  | _ => Raises TypeError
  end.

(** The comprehension [[t for t in targets if accept(t.get("type"))]]. *)
Fixpoint select_by_type (accept : json -> bool) (targets : list json)
  : outcome (list json) :=
  match targets with
  | [] => Returns []
  | t :: rest =>
      match py_get t "type" JNull with
      | Returns type =>
          match select_by_type accept rest with
          | Returns chosen => Returns (if accept type then t :: chosen else chosen)
          | Raises e => Raises e
          | Blocks => Blocks
          end
      | Raises e => Raises e
      | Blocks => Blocks
      end
  end.

(** The newline character. *)
Definition nl : string := String (Ascii.ascii_of_nat 10) EmptyString.

(** A running script: its socket and what it has printed so far, each print
    recorded as the text of its (f-)string and the values formatted into
    it, in order. *)
Record script : Type := Script {
  sock : websocket;
  printed : list (string * list json)
}.

Definition on_sock {A} (m : M websocket A) : M script A :=
  fun st => let '(o, s') := m (sock st) in (o, Script s' (printed st)).

Definition print (text : string) (values : list json) : M script unit :=
  fun st => (Returns tt, Script (sock st) (printed st ++ [(text, values)])).

(** [websocket.create_connection(url)]; [connected] of the initial socket
    tells whether the endpoint accepts the connection. *)
Definition create_connection : M script unit :=
  fun st =>
    if connected (sock st) then (Returns tt, st)
    else (Raises ConnectionRefusedError, st).

Definition sock_close : M websocket unit :=
  fun s =>
    (Returns tt, WebSocket false (sent s) (incoming s) (S (closes s))).

(** [get_active_tab()] of cdp-send-sequence.py; [listing] is what
    [requests.get("http://localhost:9222/json").json()] yields. *)
Module SendSequencePages.

Definition get_active_tab (listing : outcome json) : outcome json :=
  match listing with
  | Returns targets =>
      match py_iter targets with
      | Returns ts =>
          match select_by_type (fun type => py_eq type (JStr "page")) ts with
          | Returns pages => Returns (JArr pages)
          | Raises e => Raises e
          | Blocks => Blocks
          end
      | Raises e => Raises e
      | Blocks => Blocks
      end
  | Raises e => Raises e
  | Blocks => Blocks
  end.

End SendSequencePages.

(** cdp-direct-bg.py: asks the background page for the active tab. *)
Module DirectBg.

Definition js : string := "
new Promise((resolve) => {
    chrome.tabs.query({active: true, currentWindow: true}, (tabs) => {
        resolve(tabs);
    });
});
".

Definition request : json :=
  JObj [("id", JNum 1); ("method", JStr "Runtime.evaluate");
        ("params", JObj [("expression", JStr js);
                         ("awaitPromise", JBool true);
                         ("returnByValue", JBool true)])].

(** The loop [while True: msg = json.loads(ws.recv()); if msg.get("id") == 1:
    ...; break], up to the [break]. Every round takes a frame, so [fuel]
    above the number of frames is never used up. *)
Fixpoint wait_reply (fuel : nat) : M script json :=
  match fuel with
  | O => fun st => (Blocks, st)
  | S fuel' =>
      f <~ on_sock SendSequence.recv ;;
      msg <~ eval (json_loads f) ;;
      id <~ eval (py_get msg "id" JNull) ;;
      if py_eq id (JNum 1) then ret msg else wait_reply fuel'
  end.

(** The body of [for tab in tabs]. *)
Fixpoint print_tabs (tabs : list json) : M script unit :=
  match tabs with
  | [] => ret tt
  | tab :: rest =>
      run print "✓ Active Tab:" [] ;;
      title <~ eval (subscript tab "title") ;;
      run print "  Title: {tab['title']}" [title] ;;
      url <~ eval (subscript tab "url") ;;
      run print "  URL: {tab['url']}" [url] ;;
      id <~ eval (subscript tab "id") ;;
      run print "  ID: {tab['id']}" [id] ;;
      print_tabs rest
  end.

(** What the loop does with the reply before it breaks. *)
Definition report (msg : json) : M script unit :=
  result <~ eval (subscript msg "result") ;;
  inner <~ eval (subscript result "result") ;;
  has_value <~ eval (py_in "value" inner) ;;
  if has_value
  then
    tabs <~ eval (subscript inner "value") ;;
    items <~ eval (py_iter tabs) ;;
    print_tabs items
  else print "{json.dumps(msg, indent=2)}" [msg].

Definition connected_text : string :=
  "✓ Connected to Surfingkeys background page" +:+ nl.

Definition main : M script unit :=
  run create_connection ;;
  run print connected_text [] ;;
  run on_sock (SendSequence.send (json_dumps request)) ;;
  msg <~ (fun st => wait_reply (S (length (incoming (sock st)))) st) ;;
  run report msg ;;
  on_sock sock_close.

End DirectBg.

(** cdp-console-logger.py. Python's [str()] and [str.upper()] are taken as
    given functions. *)
Module ConsoleLogger.

(** A line appended to the log file: the fields formatted into it. *)
Record log_line : Type := LogLine {
  timestamp : string;
  target_title : json;
  log_type : string;
  message : json
}.

(** The logger thread of one target: the log file, what was printed, and
    the clock read by [datetime.now().isoformat()]. *)
Record logger : Type := Logger {
  log_file : list log_line;
  console : list (string * list json);
  clock : nat -> string;
  ticks : nat
}.

(** The filter of [main] (line 77):
    [[t for t in targets if t.get('type') in ['page', 'background_page']]]. *)
Definition select_targets (targets : json) : outcome (list json) :=
  match py_iter targets with
  | Returns ts =>
      select_by_type
        (fun type =>
           existsb (fun item => py_eq item type)
                   [JStr "page"; JStr "background_page"])
        ts
  | Raises e => Raises e
  | Blocks => Blocks
  end.

(** [' '.join(texts)]: every item must be a string. *)
Fixpoint join_spaces (texts : list json) : outcome string :=
  match texts with
  | [] => Returns ""
  | JStr t :: rest =>
      match join_spaces rest with
      | Returns joined =>
          Returns (match rest with
                   | [] => t
                   | _ :: _ => t +:+ " " +:+ joined
                   end)
      | Raises e => Raises e
      | Blocks => Blocks
      end
  | _ :: _ => Raises TypeError
  end.

Section Builtins.

Variable py_str : json -> string.
Variable upper : string -> string.

(** [log_to_file(target_title, log_type, message)]; the log file is taken
    to be writable. *)
Definition log_to_file (target_title log_type message : json)
  : M logger unit :=
  fun st =>
    let timestamp := clock st (ticks st) in
    let st := Logger (log_file st) (console st) (clock st) (S (ticks st)) in
    match log_type with
    | JStr type =>
        (Returns tt,
         Logger (log_file st
                 ++ [LogLine timestamp target_title (upper type) message])
                (console st) (clock st) (ticks st))
    | _ => (Raises AttributeError, st)
    end.

Definition log_print (text : string) (values : list json) : M logger unit :=
  fun st =>
    (Returns tt,
     Logger (log_file st) (console st ++ [(text, values)]) (clock st)
            (ticks st)).

(** The loop [for arg in args: ...] that fills [texts]. *)
Fixpoint collect_texts (args : list json) : outcome (list json) :=
  match args with
  | [] => Returns []
  | arg :: rest =>
      match py_get arg "type" JNull with
      | Returns type =>
          match
            (if py_eq type (JStr "string")
             then subscript arg "value"
             else
               match py_get arg "description" (JStr "") with
               | Returns description =>
                   match py_get arg "value" description with
                   | Returns value => Returns (JStr (py_str value))
                   | Raises e => Raises e
                   | Blocks => Blocks
                   end
               | Raises e => Raises e
               | Blocks => Blocks
               end)
          with
          | Returns text =>
              match collect_texts rest with
              | Returns texts => Returns (text :: texts)
              | Raises e => Raises e
              | Blocks => Blocks
              end
          | Raises e => Raises e
          | Blocks => Blocks
          end
      | Raises e => Raises e
      | Blocks => Blocks
      end
  end.

(** [on_message(ws, message)] of the target titled [title]. *)
Definition on_message (title : json) (message : frame) : M logger unit :=
  data <~ eval (json_loads message) ;;
  method <~ eval (py_get data "method" JNull) ;;
  if py_eq method (JStr "Runtime.consoleAPICalled")
  then
    params <~ eval (subscript data "params") ;;
    log_type <~ eval (subscript params "type") ;;
    args <~ eval (py_get params "args" (JArr [])) ;;
    items <~ eval (py_iter args) ;;
    texts <~ eval (collect_texts items) ;;
    message <~ eval (join_spaces texts) ;;
    run log_to_file title log_type (JStr message) ;;
    log_print "[{title}] {log_type}: {message}" [title; log_type; JStr message]
  else
    method <~ eval (py_get data "method" JNull) ;;
    if py_eq method (JStr "Runtime.exceptionThrown")
    then
      params <~ eval (subscript data "params") ;;
      exception <~ eval (subscript params "exceptionDetails") ;;
      error_msg <~ eval (py_get exception "text" (JStr "Unknown error")) ;;
      run log_to_file title (JStr "exception") error_msg ;;
      log_print "[{title}] EXCEPTION: {error_msg}" [title; error_msg]
    else ret tt.

End Builtins.

End ConsoleLogger.




(** A discovery entry the console logger listens to. *)
Definition is_page_or_background (t : json) : bool :=
  match t with
  | JObj kvs =>
      match dict_get "type" kvs with
      | Some (JStr type) =>
          String.eqb type "page" || String.eqb type "background_page"
      | _ => false
      end
  | _ => false
  end.

(** [sep.join(items)]: every item must be a string. *)
Fixpoint py_join (sep : string) (items : list json) : outcome string :=
  match items with
  | [] => Returns ""
  | JStr t :: rest =>
      match py_join sep rest with
      | Returns joined =>
          Returns (match rest with
                   | [] => t
                   | _ :: _ => t +:+ sep +:+ joined
                   end)
      | Raises e => Raises e
      | Blocks => Blocks
      end
  | _ :: _ => Raises TypeError
  end.

(** cdp-inspect-buttons-v2.py: reports which filter button is selected. *)
Module InspectButtonsV2.

(** The request; the text of the JavaScript plays no part here. *)
Definition command (js_code : string) : json :=
  JObj [("id", JNum 1); ("method", JStr "Runtime.evaluate");
        ("params", JObj [("expression", JStr js_code);
                         ("returnByValue", JBool true)])].

(** ["=" * 70]. *)
Definition rule : string :=
  "======================================================================".

(** The loop [for i, btn in enumerate(result['buttons'], 1)]. *)
Fixpoint print_buttons (i : Z) (buttons : list json) : M script unit :=
  match buttons with
  | [] => ret tt
  | btn :: rest =>
      is_selected <~ eval (subscript btn "isSelected") ;;
      let marker := if truthy is_selected then " ← SELECTED ✓" else "" in
      text <~ eval (subscript btn "text") ;;
      run print (nl +:+ "[{i}] {btn['text']}{marker}")
                [JNum i; text; JStr marker] ;;
      classes <~ eval (subscript btn "classes") ;;
      items <~ eval (py_iter classes) ;;
      joined <~ eval (py_join ", " items) ;;
      run print "    Classes: {', '.join(btn['classes'])}" [JStr joined] ;;
      styles <~ eval (subscript btn "styles") ;;
      color <~ eval (subscript styles "color") ;;
      run print "    Color: {btn['styles']['color']}" [color] ;;
      position <~ eval (subscript btn "position") ;;
      left <~ eval (subscript position "left") ;;
      run print "    Position: left={btn['position']['left']}px" [left] ;;
      print_buttons (i + 1) rest
  end.

(** The comprehension [[b for b in result['buttons'] if b['isSelected']]]. *)
Fixpoint selected_of (buttons : list json) : outcome (list json) :=
  match buttons with
  | [] => Returns []
  | b :: rest =>
      match subscript b "isSelected" with
      | Returns is_selected =>
          match selected_of rest with
          | Returns chosen =>
              Returns (if truthy is_selected then b :: chosen else chosen)
          | Raises e => Raises e
          | Blocks => Blocks
          end
      | Raises e => Raises e
      | Blocks => Blocks
      end
  end.

(** The body of [if "result" in response_data and ...]. *)
Definition report (response_data : json) : M script unit :=
  outer <~ eval (subscript response_data "result") ;;
  inner <~ eval (subscript outer "result") ;;
  result <~ eval (subscript inner "value") ;;
  run print rule [] ;;
  count <~ eval (subscript result "count") ;;
  run print "THE 5 FILTER BUTTONS (found {result['count']}):" [count] ;;
  run print rule [] ;;
  buttons <~ eval (subscript result "buttons") ;;
  items <~ eval (py_iter buttons) ;;
  run print_buttons 1 items ;;
  run print (nl +:+ rule) [] ;;
  run print "ANSWER:" [] ;;
  run print rule [] ;;
  buttons <~ eval (subscript result "buttons") ;;
  items <~ eval (py_iter buttons) ;;
  selected <~ eval (selected_of items) ;;
  run match selected with
      | first :: _ =>
          text <~ eval (subscript first "text") ;;
          run print (nl +:+ "✓ The selected button is: '{selected[0]['text']}'")
                    [text] ;;
          styles <~ eval (subscript first "styles") ;;
          color <~ eval (subscript styles "color") ;;
          print "  Detected by: Different color ({selected[0]['styles']['color']})"
                [color]
      | [] =>
          print (nl +:+ "⚠ Could not determine which button is selected") []
      end ;;
  counts <~ eval (subscript result "colorCounts") ;;
  print (nl +:+ "Color analysis: {result['colorCounts']}") [counts].

Definition main (js_code : string) : M script unit :=
  run print "Connecting to hckrnews tab..." [] ;;
  run create_connection ;;
  run print ("✓ Connected!" +:+ nl) [] ;;
  run print ("Finding the 5 filter buttons..." +:+ nl) [] ;;
  run on_sock (SendSequence.send (json_dumps (command js_code))) ;;
  response <~ on_sock SendSequence.recv ;;
  response_data <~ eval (json_loads response) ;;
  has_result <~ eval (match py_in "result" response_data with
                      | Returns true =>
                          match subscript response_data "result" with
                          | Returns outer => py_in "result" outer
                          | Raises e => Raises e
                          | Blocks => Blocks
                          end
                      | other => other
                      end) ;;
  run (if has_result : bool then report response_data else ret tt) ;;
  run on_sock sock_close ;;
  print (nl +:+ "Connection closed.") [].

End InspectButtonsV2.


(** A message the loop of cdp-direct-bg.py passes over: an object whose id,
    if any, is not 1. *)
Definition passed_over (msg : json) : bool :=
  match msg with
  | JObj kvs =>
      negb (py_eq (match dict_get "id" kvs with Some i => i | None => JNull end)
                  (JNum 1))
  | _ => false
  end.



(** A discovery entry that is a JSON object. *)
Definition is_object (t : json) : bool :=
  match t with
  | JObj _ => true
  | _ => false
  end.

(** A discovery entry whose [type] is the string "page". *)
Definition is_page (t : json) : bool :=
  match t with
  | JObj kvs =>
      match dict_get "type" kvs with
      | Some (JStr type) => String.eqb type "page"
      | _ => false
      end
  | _ => false
  end.

(** The [type] of a discovery entry, [None] when it has none. *)
Definition type_field (t : json) : json :=
  match t with
  | JObj kvs =>
      match dict_get "type" kvs with
      | Some type => type
      | None => JNull
      end
  | _ => JNull
  end.

(** The event of an uncaught exception with the given details. *)
Definition exception_event (details : pydict) : json :=
  JObj [("method", JStr "Runtime.exceptionThrown");
        ("params", JObj [("exceptionDetails", JObj details)])].

(** A message [on_message] has no branch for. *)
Definition unhandled_method (data : pydict) : bool :=
  let method :=
    match dict_get "method" data with Some m => m | None => JNull end in
  negb (py_eq method (JStr "Runtime.consoleAPICalled")) &&
  negb (py_eq method (JStr "Runtime.exceptionThrown")).

(** A filter button as the injected JavaScript describes it. *)
Record button : Type := Button {
  b_text : json;
  b_classes : list string;
  b_top : json;
  b_left : json;
  b_color : json;
  b_weight : json;
  b_opacity : json;
  b_decoration : json;
  b_selected : json
}.

Definition button_json (b : button) : json :=
  JObj [("text", b_text b);
        ("classes", JArr (JStr <$> b_classes b));
        ("position", JObj [("top", b_top b); ("left", b_left b)]);
        ("styles", JObj [("color", b_color b); ("fontWeight", b_weight b);
                         ("opacity", b_opacity b);
                         ("textDecoration", b_decoration b)]);
        ("isSelected", b_selected b)].

(** The reply that carries the buttons found. *)
Definition buttons_reply (count : json) (buttons : list button)
    (color_counts : json) : json :=
  JObj [("id", JNum 1);
        ("result",
         JObj [("result",
                JObj [("type", JStr "object");
                      ("value",
                       JObj [("count", count);
                             ("buttons", JArr (button_json <$> buttons));
                             ("colorCounts", color_counts)])])])].

(** The strings joined by ", ". *)
Fixpoint comma_joined (items : list string) : string :=
  match items with
  | [] => ""
  | [item] => item
  | item :: rest => item +:+ ", " +:+ comma_joined rest
  end.

(** What cdp-inspect-buttons-v2.py prints for the buttons, numbered from
    [i]. *)
Fixpoint button_lines (i : Z) (buttons : list button)
  : list (string * list json) :=
  match buttons with
  | [] => []
  | b :: rest =>
      [(nl +:+ "[{i}] {btn['text']}{marker}",
        [JNum i; b_text b;
         JStr (if truthy (b_selected b) then " ← SELECTED ✓" else "")]);
       ("    Classes: {', '.join(btn['classes'])}",
        [JStr (comma_joined (b_classes b))]);
       ("    Color: {btn['styles']['color']}", [b_color b]);
       ("    Position: left={btn['position']['left']}px", [b_left b])]
      ++ button_lines (i + 1) rest
  end.

(** What it prints before and after the report. *)
Definition v2_opening : list (string * list json) :=
  [("Connecting to hckrnews tab...", []);
   ("✓ Connected!" +:+ nl, []);
   ("Finding the 5 filter buttons..." +:+ nl, [])].

Definition v2_closing : list (string * list json) :=
  [(nl +:+ "Connection closed.", [])].

(** The setup step of [run_test] (lines 164-167). *)
Definition run_test_setup : M world json :=
  run CDPClient_init ;;
  on_client (CDPClient.send_command "Page.bringToFront" JNull).

(** Its action step and the waits that follow (lines 181-195). *)
Definition run_test_action : M world unit :=
  run on_client
    (CDPClient.send_key (JStr "t") (JStr "t") (JStr "KeyT") (JNum 84)) ;;
  run time_sleep 500 ;;
  run on_client
    (CDPClient.send_key (JStr "ArrowDown") JNull (JStr "ArrowDown")
       (JNum 40)) ;;
  run time_sleep 500 ;;
  run on_client
    (CDPClient.send_key (JStr "Enter") JNull (JStr "Enter") (JNum 13)) ;;
  run time_sleep 500 ;;
  time_sleep 1000.

(** *** Further vocabulary *)

(** Time taken by sleeps of [ms] milliseconds, one per slot. *)
Definition sleeps_duration (ms : Z) (ss : list slot) : Z :=
  fold_right (fun s acc => ms + Z.of_nat (overshoot s) + acc) 0 ss.

(** The message of the [TimeoutError] of [send_command]. *)
Definition timeout_message (command : string) : string :=
  "Extension did not respond to " +:+ command.

(** How many frames at the head of the list are JSON text. *)
Fixpoint leading_texts (frames : list frame) : nat :=
  match frames with
  | Text _ :: rest => S (leading_texts rest)
  | _ => O
  end.

(** ** Facts about the bridge server *)

Section BridgeServer.

Implicit Types (b : bridge) (ops : list queue_op) (data i r : json).

Lemma get_command_nonempty b cmd rest :
  command_queue b = cmd :: rest ->
  get_command b = (cmd, Bridge rest (response_dict b)).
Proof. unfold get_command. intros ->. reflexivity. Qed.

Lemma get_command_empty b :
  command_queue b = [] -> get_command b = (JNull, b).
Proof. unfold get_command. intros ->. reflexivity. Qed.

Lemma run_queue_conserves ops : forall b,
  command_queue b ++ enqueued ops =
  fst (run_queue ops b) ++ command_queue (snd (run_queue ops b)).
Proof.
  induction ops as [|[i c p|] ops IH]; intros b; simpl.
  - by rewrite app_nil_r.
  - rewrite <- IH. simpl. by rewrite <- app_assoc.
  - destruct (command_queue b) as [|cmd rest] eqn:Hq.
    + rewrite (get_command_empty b Hq). simpl. rewrite <- IH. by rewrite Hq.
    + rewrite (get_command_nonempty b cmd rest Hq).
      specialize (IH (Bridge rest (response_dict b))).
      destruct (run_queue ops (Bridge rest (response_dict b))) as [got b''].
      simpl in *. by rewrite IH.
Qed.

Lemma run_queue_table ops : forall b,
  response_dict (snd (run_queue ops b)) = response_dict b.
Proof.
  induction ops as [|[i c p|] ops IH]; intros b; simpl; [done| |].
  - by rewrite IH.
  - destruct (command_queue b) as [|cmd rest] eqn:Hq.
    + rewrite (get_command_empty b Hq). simpl. apply IH.
    + rewrite (get_command_nonempty b cmd rest Hq).
      specialize (IH (Bridge rest (response_dict b))).
      destruct (run_queue ops (Bridge rest (response_dict b))). apply IH.
Qed.

Lemma run_queue_drain (n : nat) : forall b,
  (length (command_queue b) <= n)%nat ->
  run_queue (repeat Claim n) b =
  (command_queue b, Bridge [] (response_dict b)).
Proof.
  induction n as [|n IH]; intros [q t] Hn; simpl in *.
  - destruct q; [done | simpl in Hn; lia].
  - destruct q as [|cmd rest]; simpl.
    + rewrite (IH (Bridge [] t)); [done | simpl; lia].
    + rewrite (IH (Bridge rest t)); [done | simpl in *; lia].
Qed.

Lemma enqueued_ids_spec ops :
  omap command_id (enqueued ops) = JStr <$> enqueued_ids ops.
Proof.
  induction ops as [|[i c p|] ops IH]; [done | | done].
  change (enqueued (Enqueue i c p :: ops))
    with (command_obj i c p :: enqueued ops).
  change (enqueued_ids (Enqueue i c p :: ops)) with (i :: enqueued_ids ops).
  rewrite fmap_cons, <- IH. reflexivity.
Qed.

Lemma NoDup_omap_inv {A B} (f : A -> option B) (l : list A) :
  (forall x, x ∈ l -> is_Some (f x)) -> NoDup (omap f l) -> NoDup l.
Proof.
  induction l as [|x l IH]; intros Hs Hnd; [constructor|].
  destruct (Hs x) as [y Hy]; [left|].
  change (omap f (x :: l)) with
    (match f x with Some y => y :: omap f l | None => omap f l end) in Hnd.
  rewrite Hy in Hnd. apply NoDup_cons in Hnd as [Hnotin Hnd].
  constructor.
  - intros Hin. apply Hnotin. apply list_elem_of_omap. eauto.
  - apply IH; [|done]. intros z Hz. apply Hs. by right.
Qed.

Lemma enqueued_NoDup ops : NoDup (enqueued_ids ops) -> NoDup (enqueued ops).
Proof.
  intros Hnd. apply (NoDup_omap_inv command_id).
  - clear Hnd. induction ops as [|[i c p|] ops IH]; simpl.
    + intros x Hx. by apply elem_of_nil in Hx.
    + intros x Hx. apply elem_of_cons in Hx as [->|Hx]; [by eexists | auto].
    + done.
  - rewrite enqueued_ids_spec. apply NoDup_fmap_2; [|done].
    intros x y. by inversion 1.
Qed.

Lemma post_response_stores b data i r k :
  subscript data "id" = Returns i ->
  subscript data "result" = Returns r ->
  py_hash i = Some k ->
  post_response data b =
  (Returns status_ok, Bridge (command_queue b) (<[k := r]> (response_dict b))).
Proof. unfold post_response. by intros -> -> ->. Qed.

End BridgeServer.

(** ** Facts about the CDP client *)

Section CDP.

Implicit Types (c : cdp_client) (params j : json) (method : string).

Lemma send_command_step c method params :
  connected (ws c) = true ->
  CDPClient.send_command method params c =
  let id := cmd_id c + 1 in
  let sent' := sent (ws c) ++ [Text (CDPClient.command id method params)] in
  match incoming (ws c) with
  | [] => (Blocks, CDP (WebSocket true sent' [] (closes (ws c))) id)
  | Text j :: rest =>
      (Returns j, CDP (WebSocket true sent' rest (closes (ws c))) id)
  | Garbled raw :: rest =>
      (Raises JSONDecodeError,
       CDP (WebSocket true sent' rest (closes (ws c))) id)
  end.
Proof.
  destruct c as [[conn snt inc cl] n]. simpl. intros ->.
  unfold CDPClient.send_command, bind, ws_send, ws_recv, eval, ret. simpl.
  destruct inc as [|[j|raw] rest]; reflexivity.
Qed.

Lemma send_command_cmd_id c method params :
  cmd_id (snd (CDPClient.send_command method params c)) = cmd_id c + 1.
Proof.
  destruct c as [[conn snt inc cl] n].
  unfold CDPClient.send_command, bind, ws_send, ws_recv, eval, ret. simpl.
  destruct conn; [|reflexivity].
  destruct inc as [|[j|raw] rest]; reflexivity.
Qed.

Lemma send_command_connected c method params :
  connected (ws c) = true ->
  connected (ws (snd (CDPClient.send_command method params c))) = true.
Proof.
  intros H. rewrite send_command_step by done. simpl.
  destruct (incoming (ws c)) as [|[j|raw] rest]; reflexivity.
Qed.

Lemma send_command_sent c method params :
  connected (ws c) = true ->
  sent (ws (snd (CDPClient.send_command method params c))) =
  sent (ws c) ++ [Text (CDPClient.command (cmd_id c + 1) method params)].
Proof.
  intros H. rewrite send_command_step by done. simpl.
  destruct (incoming (ws c)) as [|[j|raw] rest]; reflexivity.
Qed.

Lemma ids_from_S first n :
  ids_from first (S n) = JNum first :: ids_from (first + 1) n.
Proof.
  unfold ids_from. simpl. f_equal; [f_equal; lia|].
  rewrite <- fmap_S_seq, <- list_fmap_compose.
  apply list_fmap_ext. intros _ i _. simpl. f_equal. lia.
Qed.

Lemma ids_from_NoDup first n : NoDup (ids_from first n).
Proof.
  unfold ids_from. apply NoDup_fmap_2; [|apply NoDup_seq].
  intros i j [= H]. lia.
Qed.

Lemma send_commands_ids (calls : list (string * json)) : forall c,
  connected (ws c) = true ->
  exists n reqs,
    (n <= length calls)%nat /\
    sent (ws (send_commands calls c)) = sent (ws c) ++ reqs /\
    omap request_id reqs = ids_from (cmd_id c + 1) n /\
    cmd_id (send_commands calls c) = cmd_id c + Z.of_nat n.
Proof.
  induction calls as [|[method params] calls IH]; intros c Hc.
  - exists 0%nat, []. simpl. rewrite app_nil_r. repeat split; [lia..|].
    lia.
  - pose proof (send_command_sent c method params Hc) as Hsent.
    pose proof (send_command_cmd_id c method params) as Hid.
    pose proof (send_command_connected c method params Hc) as Hconn.
    simpl.
    destruct (CDPClient.send_command method params c) as [o c1] eqn:Hrun.
    simpl in *.
    assert (Hone : exists n reqs, (n <= S (length calls))%nat /\
              sent (ws c1) = sent (ws c) ++ reqs /\
              omap request_id reqs = ids_from (cmd_id c + 1) n /\
              cmd_id c1 = cmd_id c + Z.of_nat n).
    { exists 1%nat, [Text (CDPClient.command (cmd_id c + 1) method params)].
      repeat split; [lia | done | | lia].
      rewrite ids_from_S. reflexivity. }
    destruct o as [v|e|]; [| |exact Hone]; clear Hone;
      destruct (IH c1 Hconn) as (n & reqs & Hn & Hs & Hids & Hcid);
      exists (S n), (Text (CDPClient.command (cmd_id c + 1) method params) :: reqs);
      (repeat split;
       [ lia
       | rewrite Hs, Hsent, <- app_assoc; reflexivity
       | rewrite ids_from_S, <- Hid, <- Hids, Hid; reflexivity
       | lia ]).
Qed.

Lemma key_event_built (type : string) (key_name code key_code : json) :
  (let params := [("type", JStr type); ("key", key_name)] in
   let params := if truthy code then dict_set "code" code params else params in
   if truthy key_code
   then dict_set "nativeVirtualKeyCode" key_code
          (dict_set "windowsVirtualKeyCode" key_code params)
   else params)
  = key_event type key_name code key_code.
Proof.
  unfold key_event. simpl.
  destruct (truthy code), (truthy key_code); reflexivity.
Qed.

Lemma key_event_nonempty type key_name code key_code :
  truthy (JObj (key_event type key_name code key_code)) = true.
Proof. reflexivity. Qed.

Lemma send_key_sends c key_name text code key_code replies rest :
  connected (ws c) = true ->
  incoming (ws c) = (Text <$> replies) ++ rest ->
  length replies = length (key_press_events key_name text code key_code) ->
  CDPClient.send_key key_name text code key_code c =
  (Returns tt,
   CDP (WebSocket true
          (sent (ws c)
           ++ number_from (cmd_id c + 1)
                (key_press_events key_name text code key_code))
          rest (closes (ws c)))
       (cmd_id c
        + Z.of_nat (length (key_press_events key_name text code key_code)))).
Proof.
  destruct c as [[conn snt inc cl] n]. simpl. intros -> -> Hlen.
  unfold CDPClient.send_key. rewrite !key_event_built.
  unfold key_press_events in *.
  destruct (truthy text);
    [destruct replies as [|r1 [|r2 [|r3 [|]]]] | destruct replies as [|r1 [|r2 [|]]]];
    try discriminate Hlen;
    unfold bind, CDPClient.send_command, CDPClient.command, py_or, ws_send,
      ws_recv, eval, ret;
    simpl; rewrite <- !app_assoc; simpl;
    f_equal; f_equal; first [reflexivity | lia].
Qed.

Lemma send_sequence_key_event_sends s key_name text code key_code first
    frames rest :
  connected s = true ->
  incoming s = frames ++ rest ->
  length frames = length (key_press_events key_name text code key_code) ->
  SendSequence.send_key key_name text code key_code first s =
  (Returns tt,
   WebSocket true
     (sent s
      ++ [Text (SendSequence.command first
                  (key_event "keyDown" key_name code key_code))]
      ++ (if truthy text
          then [Text (SendSequence.command (first + 1)
                        (char_event key_name text))]
          else [])
      ++ [Text (SendSequence.command (first + 2)
                  (key_event "keyUp" key_name code key_code))])
     rest (closes s)).
Proof.
  destruct s as [conn snt inc cl]. simpl. intros -> -> Hlen.
  unfold SendSequence.send_key. rewrite !key_event_built.
  unfold key_press_events in *.
  destruct (truthy text);
    [destruct frames as [|r1 [|r2 [|r3 [|]]]] | destruct frames as [|r1 [|r2 [|]]]];
    try discriminate Hlen;
    unfold bind, SendSequence.send, SendSequence.recv, ret;
    simpl; rewrite <- !app_assoc; reflexivity.
Qed.

End CDP.

(** ** Facts about the bridge client *)

Section Waiting.

Variables (cmd_id command : string) (start_time timeout : Z).

Local Abbreviation k := (KStr cmd_id).
Local Abbreviation message := ("Extension did not respond to " +:+ command).

Lemma handle_other_key r b :
  match r with
  | PostResponse data => submission_key data <> Some k
  | GetCommand => True
  end ->
  response_dict (handle r b) !! k = response_dict b !! k.
Proof.
  destruct r as [|data]; simpl.
  - intros _. unfold get_command. by destruct (command_queue b).
  - unfold submission_key, post_response.
    destruct (subscript data "result"); [|done..].
    destruct (subscript data "id") as [i| |]; [|done..].
    destruct (py_hash i) as [k'|]; [|done].
    intros Hne. simpl. apply lookup_insert_ne. congruence.
Qed.

Lemma serve_other_key rs : forall b,
  never_submits k rs ->
  response_dict (serve rs b) !! k = response_dict b !! k.
Proof.
  induction rs as [|r rs IH]; intros b Hrs; [done|].
  apply Forall_cons in Hrs as [Hr Hrs]. simpl.
  unfold serve in IH. rewrite IH by done. by apply handle_other_key.
Qed.

Lemma serve_app rs1 rs2 b :
  serve (rs1 ++ rs2) b = serve rs2 (serve rs1 b).
Proof. unfold serve. apply fold_left_app. Qed.

Lemma time_sleep_never_submitted ms w :
  never_submitted k w -> never_submitted k (snd (time_sleep ms w)).
Proof.
  intros [Habs Hsch]. unfold time_sleep.
  destruct (schedule w) as [|s rest] eqn:Hs; simpl.
  - split; [done | constructor].
  - apply Forall_cons in Hsch as [Hs1 Hrest]. split; [|done].
    simpl. by rewrite serve_other_key.
Qed.

Lemma time_sleep_traffic ms w n :
  serve (traffic n (snd (time_sleep ms w))) (srv (snd (time_sleep ms w))) =
  serve (traffic (S n) w) (srv w) /\
  drop n (schedule (snd (time_sleep ms w))) = drop (S n) (schedule w).
Proof.
  unfold time_sleep, traffic.
  destruct (schedule w) as [|s rest]; simpl.
  - by rewrite take_nil, drop_nil.
  - by rewrite serve_app.
Qed.

Lemma time_sleep_now ms w d :
  Forall (fun s => Z.of_nat (overshoot s) <= d) (schedule w) -> 0 <= d ->
  now w + ms <= now (snd (time_sleep ms w)) <= now w + ms + d /\
  Forall (fun s => Z.of_nat (overshoot s) <= d)
         (schedule (snd (time_sleep ms w))).
Proof.
  intros Hd Hd0. unfold time_sleep.
  destruct (schedule w) as [|s rest]; simpl.
  - split; [lia | constructor].
  - apply Forall_cons in Hd as [Hs Hrest]. split; [lia | done].
Qed.

Lemma time_sleep_frame ms w :
  client (snd (time_sleep ms w)) = client w /\
  uuid_source (snd (time_sleep ms w)) = uuid_source w /\
  uuid_drawn (snd (time_sleep ms w)) = uuid_drawn w /\
  endpoint_up (snd (time_sleep ms w)) = endpoint_up w.
Proof. unfold time_sleep. by destruct (schedule w). Qed.

Lemma wait_response_times_out d fuel : forall w,
  never_submitted k w ->
  Forall (fun s => Z.of_nat (overshoot s) <= d) (schedule w) ->
  0 <= d ->
  start_time + timeout - now w < 100 * Z.of_nat fuel ->
  now w - start_time <= Z.max 0 timeout + 100 + d ->
  exists n w',
    ExtensionBridge.wait_response fuel cmd_id command start_time timeout w =
    (Raises (TimeoutError message), w') /\
    timeout < now w' - start_time <= Z.max 0 timeout + 100 + d /\
    srv w' = serve (traffic n w) (srv w) /\
    schedule w' = drop n (schedule w) /\
    client w' = client w /\
    uuid_source w' = uuid_source w /\
    uuid_drawn w' = uuid_drawn w.
Proof.
  induction fuel as [|fuel IH]; intros w Hns Hd Hd0 Hfuel Hbound;
    pose proof Hns as [Habs _]; simpl; rewrite Habs.
  - destruct (Z.gtb_spec (now w - start_time) timeout) as [Hgt|Hle]; [|lia].
    exists 0%nat, w. repeat split; try done; lia.
  - destruct (Z.gtb_spec (now w - start_time) timeout) as [Hgt|Hle].
    { exists 0%nat, w. repeat split; try done; lia. }
    destruct (time_sleep_now 100 w d Hd Hd0) as [Hnow Hd'].
    destruct (time_sleep_frame 100 w) as (Hc & Hu & Hn & _).
    destruct (IH (snd (time_sleep 100 w))) as (n & w' & Hrun & Ht & Hs & Hsch & Hc' & Hu' & Hn');
      [by apply time_sleep_never_submitted | done | done | lia | lia |].
    destruct (time_sleep_traffic 100 w n) as [Htr Hdr].
    exists (S n), w'. rewrite Hrun. repeat split; try lia; congruence.
Qed.

Lemma wait_response_found fuel : forall w w',
  ExtensionBridge.wait_response fuel cmd_id command start_time timeout w =
  (Returns tt, w') ->
  is_Some (response_dict (srv w') !! k) /\
  client w' = client w /\
  uuid_source w' = uuid_source w /\
  uuid_drawn w' = uuid_drawn w /\
  exists n, srv w' = serve (traffic n w) (srv w).
Proof.
  induction fuel as [|fuel IH]; intros w w'; simpl;
    destruct (response_dict (srv w) !! KStr cmd_id) as [r|] eqn:Hr.
  - intros [= <-]. rewrite Hr. repeat split; eauto.
    by exists 0%nat.
  - by destruct (now w - start_time >? timeout).
  - intros [= <-]. rewrite Hr. repeat split; eauto.
    by exists 0%nat.
  - destruct (now w - start_time >? timeout); [done|].
    intros Hrun. apply IH in Hrun as (Hsome & Hc & Hu & Hn & n & Hs).
    destruct (time_sleep_frame 100 w) as (Hc' & Hu' & Hn' & _).
    destruct (time_sleep_traffic 100 w n) as [Htr _].
    repeat split; try congruence. exists (S n). congruence.
Qed.

Lemma wait_response_terminates fuel : forall w,
  start_time + timeout - now w < 100 * Z.of_nat fuel ->
  fst (ExtensionBridge.wait_response fuel cmd_id command start_time timeout w)
  <> Blocks.
Proof.
  induction fuel as [|fuel IH]; intros w Hfuel; simpl;
    destruct (response_dict (srv w) !! KStr cmd_id); try done;
    destruct (Z.gtb_spec (now w - start_time) timeout) as [Hgt|Hle];
    try done; [lia|].
  apply IH.
  assert (now w + 100 <= now (snd (time_sleep 100 w))); [|lia].
  unfold time_sleep. destruct (schedule w); simpl; lia.
Qed.

End Waiting.

(** ** The bridge server's contract *)

(** C5. [get_command] is a total function of the server state, so a poll
    returns at once. With a non-empty queue it removes the head command and
    replies with it; with an empty queue it replies [null] and the queue
    stays empty. The result table is untouched either way. *)
Theorem get_command_claims_head_or_null (b : bridge) :
  match command_queue b with
  | cmd :: rest =>
      fst (get_command b) = cmd /\
      command_queue (snd (get_command b)) = rest
  | [] =>
      fst (get_command b) = JNull /\
      command_queue (snd (get_command b)) = []
  end /\
  response_dict (snd (get_command b)) = response_dict b.
Proof.
  destruct (command_queue b) as [|cmd rest] eqn:Hq.
  - rewrite (get_command_empty b Hq). simpl. by rewrite Hq.
  - by rewrite (get_command_nonempty b cmd rest Hq).
Qed.

(** C6. The pending queue is first-in first-out and delivers at most once.
    Take any interleaving [ops] of enqueues (by any client) and polls,
    started on an empty queue, in which every command id is enqueued once.
    The commands handed out, in the order of the polls, followed by the
    commands still queued, are exactly the commands enqueued, in enqueue
    order; no command occurs twice in that sequence, so none is handed to two
    polls; and as soon as [n] further polls cover the queue length, they
    hand out the remaining commands, in order, and leave the queue empty. *)
Theorem queue_fifo_at_most_once (ops : list queue_op) (n : nat) :
  NoDup (enqueued_ids ops) ->
  (length (command_queue (snd (run_queue ops bridge_init))) <= n)%nat ->
  let got := fst (run_queue ops bridge_init) in
  let b' := snd (run_queue ops bridge_init) in
  enqueued ops = got ++ command_queue b' /\
  NoDup (got ++ command_queue b') /\
  run_queue (repeat Claim n) b' =
  (command_queue b', Bridge [] (response_dict b')).
Proof.
  intros Hnd Hn got b'.
  pose proof (run_queue_conserves ops bridge_init) as Hcons.
  simpl in Hcons. fold got b' in Hcons.
  split; [done|]. split.
  - rewrite <- Hcons. by apply enqueued_NoDup.
  - by apply run_queue_drain.
Qed.

(** Two clients enqueue, the poller claims three times, a third command
    arrives, and one more poll drains the queue. *)
Lemma queue_fifo_at_most_once_witness :
  let ops := [Enqueue "a" "get_active_tab" JNull; Claim;
              Enqueue "b" "get_all_tabs" JNull; Claim; Claim;
              Enqueue "c" "get_active_tab" JNull] in
  fst (run_queue ops bridge_init) =
    [command_obj "a" "get_active_tab" JNull;
     command_obj "b" "get_all_tabs" JNull] /\
  (enqueued ops =
     fst (run_queue ops bridge_init)
     ++ command_queue (snd (run_queue ops bridge_init)) /\
   NoDup (fst (run_queue ops bridge_init)
          ++ command_queue (snd (run_queue ops bridge_init))) /\
   run_queue (repeat Claim 1) (snd (run_queue ops bridge_init)) =
   (command_queue (snd (run_queue ops bridge_init)),
    Bridge [] (response_dict (snd (run_queue ops bridge_init))))).
Proof.
  intros ops. split; [reflexivity|].
  apply (queue_fifo_at_most_once ops 1).
  - refine (bool_decide_unpack _ _). vm_compute. exact I.
  - vm_compute. lia.
Defined.

(** C8. Submitting a result always succeeds and files the payload under the
    result's id, replacing whatever was filed there: for every server state
    and every submission carrying an id (a JSON scalar) and a result, the
    server replies [{'status': 'ok'}], the table then maps the id to the
    payload, every other entry is unchanged, and the state after two
    submissions for one id is the state after the last of them alone. *)
Theorem post_response_overwrites
    (b : bridge) (data data0 i r r0 : json) (k : pykey) :
  subscript data "id" = Returns i ->
  subscript data "result" = Returns r ->
  py_hash i = Some k ->
  subscript data0 "id" = Returns i ->
  subscript data0 "result" = Returns r0 ->
  let b' := snd (post_response data b) in
  fst (post_response data b) = Returns status_ok /\
  response_dict b' !! k = Some r /\
  (forall k', k' <> k -> response_dict b' !! k' = response_dict b !! k') /\
  command_queue b' = command_queue b /\
  post_response data (snd (post_response data0 b)) = post_response data b.
Proof.
  intros Hi Hr Hk Hi0 Hr0 b'. unfold b'.
  rewrite !(post_response_stores _ data i r k) by done.
  rewrite (post_response_stores _ data0 i r0 k) by done. simpl.
  repeat split.
  - apply lookup_insert_eq.
  - intros k' Hne. by apply lookup_insert_ne.
  - by rewrite insert_insert_eq.
Qed.

Lemma post_response_overwrites_witness :
  let b := Bridge [] {[KStr "a" := failure "stale"; KStr "z" := JNull]} in
  let data := submission (JStr "a") (success (tab 7 "Google")) in
  let data0 := submission (JStr "a") (failure "first try") in
  fst (post_response data b) = Returns status_ok /\
  response_dict (snd (post_response data b)) !! KStr "a"
    = Some (success (tab 7 "Google")) /\
  (forall k', k' <> KStr "a" ->
     response_dict (snd (post_response data b)) !! k' = response_dict b !! k') /\
  command_queue (snd (post_response data b)) = command_queue b /\
  post_response data (snd (post_response data0 b)) = post_response data b.
Proof.
  intros b data data0.
  apply (post_response_overwrites b data data0 (JStr "a")
           (success (tab 7 "Google")) (failure "first try") (KStr "a"));
    reflexivity.
Defined.

(** C10. The submit endpoint never consults the pending queue or any record
    of past commands: for every table, every submission carrying an id and a
    result is filed and acknowledged with [{'status': 'ok'}] whatever the
    queue holds, in particular when it is empty and when no queued command
    bears the submitted id; reply and table are the same for any two queue
    contents, and the queue itself is left as it was. *)
Theorem post_response_ignores_queue
    (t : gmap pykey json) (q q' : list json) (data i r : json) (k : pykey) :
  subscript data "id" = Returns i ->
  subscript data "result" = Returns r ->
  py_hash i = Some k ->
  post_response data (Bridge q t) = (Returns status_ok, Bridge q (<[k := r]> t)) /\
  post_response data (Bridge [] t) = (Returns status_ok, Bridge [] (<[k := r]> t)) /\
  fst (post_response data (Bridge q' t)) = fst (post_response data (Bridge q t)) /\
  response_dict (snd (post_response data (Bridge q' t))) =
  response_dict (snd (post_response data (Bridge q t))).
Proof.
  intros Hi Hr Hk.
  rewrite !(post_response_stores _ data i r k) by done. done.
Qed.

(** A result for an id that was never queued, while another command waits. *)
Lemma post_response_ignores_queue_witness :
  let q := [command_obj "a" "get_active_tab" JNull] in
  let data := submission (JStr "rogue") (success JNull) in
  post_response data (Bridge q ∅) =
    (Returns status_ok, Bridge q {[KStr "rogue" := success JNull]}) /\
  post_response data (Bridge [] ∅) =
    (Returns status_ok, Bridge [] {[KStr "rogue" := success JNull]}) /\
  fst (post_response data (Bridge [] ∅)) = fst (post_response data (Bridge q ∅)) /\
  response_dict (snd (post_response data (Bridge [] ∅))) =
  response_dict (snd (post_response data (Bridge q ∅))).
Proof.
  intros q data.
  apply (post_response_ignores_queue ∅ q [] data (JStr "rogue")
           (success JNull) (KStr "rogue")); reflexivity.
Defined.

(** ** The automation client's contract *)

(** C2, as the specification words it, fails on both counts. When the
    browser reports a page event before it answers request 1, the call
    returns that event, which bears no id. And when the reply with id 1 is
    the next frame, the call returns the whole reply object, not the value
    of its [result] field. *)
Lemma call_returns_matching_result_counterexample :
  ~ call_returns_matching_result client_with_event "Page.bringToFront" JNull /\
  ~ call_returns_matching_result (fresh_client [reply 1]) "Page.bringToFront"
      JNull.
Proof.
  split; intros H.
  - edestruct (H page_event) as (r & Hin & Hid & Hres); [reflexivity|].
    apply elem_of_cons in Hin as [Hin|Hin].
    + injection Hin as ->. discriminate Hid.
    + apply list_elem_of_singleton in Hin. injection Hin as ->.
      discriminate Hres.
  - edestruct (H (JObj [("id", JNum 1); ("result", JObj [])]))
      as (r & Hin & Hid & Hres); [reflexivity|].
    apply list_elem_of_singleton in Hin. injection Hin as ->.
    discriminate Hres.
Qed.

(** C2, amended. On an open connection [send_command] numbers the request
    one above the previous request, sends [{id, method, params or {}}] and
    waits for the next frame on the connection: it blocks while there is
    none, returns the frame parsed and whole whatever id it bears, and raises
    when the frame is not JSON. Over any series of calls the ids sent are
    consecutive from the first one, hence pairwise distinct. *)
Theorem send_command_next_id_next_frame
    (c : cdp_client) (method : string) (params : json)
    (calls : list (string * json)) :
  connected (ws c) = true ->
  CDPClient.send_command method params c =
  (let id := cmd_id c + 1 in
   let sent' := sent (ws c) ++ [Text (CDPClient.command id method params)] in
   match incoming (ws c) with
   | [] => (Blocks, CDP (WebSocket true sent' [] (closes (ws c))) id)
   | Text j :: rest =>
       (Returns j, CDP (WebSocket true sent' rest (closes (ws c))) id)
   | Garbled raw :: rest =>
       (Raises JSONDecodeError,
        CDP (WebSocket true sent' rest (closes (ws c))) id)
   end) /\
  exists n,
    (n <= length calls)%nat /\
    omap request_id (sent_since c (send_commands calls c))
    = ids_from (cmd_id c + 1) n /\
    NoDup (ids_from (cmd_id c + 1) n).
Proof.
  intros Hc. split; [by apply send_command_step|].
  destruct (send_commands_ids calls c Hc) as (n & reqs & Hn & Hs & Hids & _).
  exists n. repeat split; [done | | apply ids_from_NoDup].
  unfold sent_since. by rewrite Hs, drop_app_length.
Qed.

Lemma send_command_next_id_next_frame_witness :
  connected (ws client_with_event) = true /\
  CDPClient.send_command "Page.bringToFront" JNull client_with_event =
  (Returns page_event,
   CDP (WebSocket true
          [Text (CDPClient.command 1 "Page.bringToFront" JNull)]
          [reply 1] 0) 1) /\
  exists n,
    (n <= 3)%nat /\
    omap request_id
      (sent_since client_with_event
         (send_commands [("Page.bringToFront", JNull); ("Page.reload", JNull);
                         ("Page.enable", JNull)] client_with_event))
    = ids_from 1 n /\
    NoDup (ids_from 1 n).
Proof.
  split; [reflexivity|].
  apply (send_command_next_id_next_frame client_with_event
           "Page.bringToFront" JNull
           [("Page.bringToFront", JNull); ("Page.reload", JNull);
            ("Page.enable", JNull)]).
  reflexivity.
Defined.

(** C3, as the specification words it, fails: the press of "t" with code
    "KeyT" and key code 84 sends a character event that carries the key name
    and the text, but neither the code nor the key code. *)
Lemma key_press_as_specified_counterexample :
  ~ key_press_as_specified (fresh_client [reply 1; reply 2; reply 3])
      (JStr "t") (JStr "t") (JStr "KeyT") (JNum 84).
Proof.
  intros (_ & _ & Hall).
  apply Forall_cons in Hall as [_ Hall].
  apply Forall_cons in Hall as [(kvs & Hkvs & _ & Hcode & _) _].
  injection Hkvs as <-.
  discriminate (Hcode ltac:(discriminate)).
Qed.

Lemma key_press_events_length key_name text code key_code :
  length (key_press_events key_name text code key_code)
  = if truthy text then 3%nat else 2%nat.
Proof. unfold key_press_events. by destruct (truthy text). Qed.

(** C3, amended. When the browser answers each request, [send_key] issues
    key-down, then a character event if (and only if) the literal is
    non-empty, then key-up, and nothing else: three requests in that order,
    or two. Every event carries the key name. Key-down and key-up carry, in
    addition, the code when it is non-empty and the key code (as both
    virtual key codes) when it is non-zero; the character event carries the
    text and no code or key code. The method of [CDPClient] numbers the
    requests consecutively; the function of cdp-send-sequence.py sends the
    same events numbered [first], [first + 1] (character) and [first + 2]. *)
Theorem send_key_event_sequence
    (c : cdp_client) (key_name text code key_code : json) (first : Z)
    (replies : list json) (rest : list frame) :
  connected (ws c) = true ->
  incoming (ws c) = (Text <$> replies) ++ rest ->
  length replies = (if truthy text then 3%nat else 2%nat) ->
  let events := key_press_events key_name text code key_code in
  CDPClient.send_key key_name text code key_code c =
  (Returns tt,
   CDP (WebSocket true (sent (ws c) ++ number_from (cmd_id c + 1) events)
          rest (closes (ws c)))
       (cmd_id c + Z.of_nat (length events))) /\
  SendSequence.send_key key_name text code key_code first (ws c) =
  (Returns tt,
   WebSocket true
     (sent (ws c)
      ++ [Text (SendSequence.command first
                  (key_event "keyDown" key_name code key_code))]
      ++ (if truthy text
          then [Text (SendSequence.command (first + 1)
                        (char_event key_name text))]
          else [])
      ++ [Text (SendSequence.command (first + 2)
                  (key_event "keyUp" key_name code key_code))])
     rest (closes (ws c))) /\
  dict_get "type" <$> events =
  (if truthy text
   then [Some (JStr "keyDown"); Some (JStr "char"); Some (JStr "keyUp")]
   else [Some (JStr "keyDown"); Some (JStr "keyUp")]) /\
  Forall (fun e => dict_get "key" e = Some key_name) events /\
  (forall type,
     let e := key_event type key_name code key_code in
     dict_get "type" e = Some (JStr type) /\
     dict_get "code" e = (if truthy code then Some code else None) /\
     dict_get "windowsVirtualKeyCode" e
     = (if truthy key_code then Some key_code else None) /\
     dict_get "nativeVirtualKeyCode" e
     = (if truthy key_code then Some key_code else None)) /\
  (let e := char_event key_name text in
   dict_get "text" e = Some text /\
   dict_get "code" e = None /\
   dict_get "windowsVirtualKeyCode" e = None /\
   dict_get "nativeVirtualKeyCode" e = None).
Proof.
  intros Hc Hin Hlen events.
  rewrite <- key_press_events_length with (key_name := key_name)
    (code := code) (key_code := key_code) in Hlen.
  split; [by apply send_key_sends with (replies := replies)|].
  split.
  { apply send_sequence_key_event_sends with (frames := Text <$> replies);
      [done | done | by rewrite length_fmap]. }
  unfold events, key_press_events, key_event, char_event.
  destruct (truthy text), (truthy code), (truthy key_code); simpl;
    (split; [reflexivity|]); (split; [repeat constructor|]);
    (split; [intros type; repeat split | repeat split]).
Qed.

Lemma send_key_event_sequence_witness :
  CDPClient.send_key (JStr "t") (JStr "t") (JStr "KeyT") (JNum 84)
    (fresh_client [reply 1; reply 2; reply 3; reply 4]) =
  (Returns tt,
   CDP (WebSocket true
          ([] ++ number_from (0 + 1)
                   (key_press_events (JStr "t") (JStr "t") (JStr "KeyT")
                      (JNum 84)))
          [reply 4] 0)
       (0 + Z.of_nat
              (length (key_press_events (JStr "t") (JStr "t") (JStr "KeyT")
                         (JNum 84))))).
Proof.
  exact (proj1 (send_key_event_sequence
                  (fresh_client [reply 1; reply 2; reply 3; reply 4])
                  (JStr "t") (JStr "t") (JStr "KeyT") (JNum 84) 10
                  [JObj [("id", JNum 1); ("result", JObj [])];
                   JObj [("id", JNum 2); ("result", JObj [])];
                   JObj [("id", JNum 3); ("result", JObj [])]]
                  [reply 4] eq_refl eq_refl eq_refl)).
Defined.

(** ** The bridge client's contract *)

Lemma wait_response_uuid cmd_id command start_time timeout fuel : forall w,
  let w' := snd (ExtensionBridge.wait_response fuel cmd_id command start_time
                   timeout w) in
  uuid_source w' = uuid_source w /\ uuid_drawn w' = uuid_drawn w.
Proof.
  induction fuel as [|fuel IH]; intros w; simpl;
    destruct (response_dict (srv w) !! KStr cmd_id); try done;
    destruct (now w - start_time >? timeout); try done.
  destruct (IH (snd (time_sleep 100 w))) as [Hu Hn].
  destruct (time_sleep_frame 100 w) as (_ & Hu' & Hn' & _).
  split; congruence.
Qed.


Lemma wait_fuel_enough timeout : timeout < 100 * Z.of_nat (ExtensionBridge.wait_fuel timeout).
Proof.
  unfold ExtensionBridge.wait_fuel.
  pose proof (Z.mul_succ_div_gt timeout 100 ltac:(lia)). lia.
Qed.

(** The wait of [send_command] always comes to an end. *)
Lemma send_command_terminates command params timeout w :
  fst (ExtensionBridge.send_command command params timeout w) <> Blocks.
Proof.
  unfold ExtensionBridge.send_command, ExtensionBridge.queue_command,
    ExtensionBridge.await_response, bind, uuid4_str, time_time, ret.
  cbn -[ExtensionBridge.wait_response ExtensionBridge.wait_fuel].
  match goal with
  | |- context [ExtensionBridge.wait_response ?f ?i ?c ?s ?t ?w1] =>
      pose proof (wait_response_terminates i c s t f w1) as Hterm;
      destruct (ExtensionBridge.wait_response f i c s t w1) as [[[]| |] w2]
  end; simpl in *; try done.
  - unfold ExtensionBridge.pop_response.
    by destruct (response_dict (srv w2) !! _).
  - exfalso. apply Hterm; [|done]. pose proof (wait_fuel_enough timeout). lia.
Qed.

(** C4. A [send_command] whose id is never answered raises [TimeoutError]
    naming the command. It does so at the first check at which more than
    [timeout] has elapsed, so never before the deadline, and at most one
    sleep (100 ms plus the largest overrun [d] of a sleep) after it. The
    call queued its command once and did nothing else to the server: the
    server state it leaves is the single enqueue followed by the requests
    the server handled meanwhile. *)
Theorem send_command_times_out
    (w : world) (command : string) (params : json) (timeout d : Z) :
  never_submitted (KStr (uuid_source w (uuid_drawn w))) w ->
  Forall (fun s => Z.of_nat (overshoot s) <= d) (schedule w) ->
  0 <= d ->
  exists n w',
    ExtensionBridge.send_command command params timeout w =
    (Raises (TimeoutError ("Extension did not respond to " +:+ command)), w') /\
    timeout < now w' - now w <= Z.max 0 timeout + 100 + d /\
    srv w' =
    serve (traffic n w)
      (enqueue (command_obj (uuid_source w (uuid_drawn w)) command params)
         (srv w)) /\
    uuid_drawn w' = S (uuid_drawn w).
Proof.
  intros [Habs Hsch] Hd Hd0.
  unfold ExtensionBridge.send_command, ExtensionBridge.queue_command,
    ExtensionBridge.await_response, bind, uuid4_str, time_time, ret.
  cbn -[ExtensionBridge.wait_response ExtensionBridge.wait_fuel].
  match goal with
  | |- context [ExtensionBridge.wait_response ?f ?i ?c ?s ?t ?w1] =>
      destruct (wait_response_times_out i c s t d f w1)
        as (n & w' & Hrun & Ht & Hs & _ & _ & _ & Hn)
  end.
  - split; done.
  - done.
  - done.
  - pose proof (wait_fuel_enough timeout). simpl. lia.
  - simpl. lia.
  - exists n, w'. rewrite Hrun. simpl in *. repeat split; try done; lia.
Qed.

Lemma send_command_times_out_witness :
  exists n w',
    ExtensionBridge.send_command "get_active_tab" JNull 5000
      world_other_answer =
    (Raises (TimeoutError "Extension did not respond to get_active_tab"), w') /\
    5000 < now w' - 0 <= Z.max 0 5000 + 100 + 3 /\
    srv w' =
    serve (traffic n world_other_answer)
      (enqueue (command_obj (uuids 0) "get_active_tab" JNull) bridge_init) /\
    uuid_drawn w' = 1%nat.
Proof.
  apply (send_command_times_out world_other_answer "get_active_tab" JNull
           5000 3).
  - split; [reflexivity|].
    repeat constructor. simpl. discriminate.
  - repeat constructor; simpl; lia.
  - lia.
Defined.

Lemma traffic_none (w : world) : traffic 0 w = [].
Proof. reflexivity. Qed.

(** The wait loop returns at the first of its tests at which the table
    holds the id; the server state is then the one the requests handled
    during the sleeps so far have produced. *)
Lemma wait_response_found_first cmd_id command start_time timeout fuel :
  forall w w',
  ExtensionBridge.wait_response fuel cmd_id command start_time timeout w =
  (Returns tt, w') ->
  exists n,
    srv w' = serve (traffic n w) (srv w) /\
    is_Some (response_dict (srv w') !! KStr cmd_id) /\
    forall m, (m < n)%nat ->
      response_dict (serve (traffic m w) (srv w)) !! KStr cmd_id = None.
Proof.
  induction fuel as [|fuel IH]; intros w w'; simpl;
    destruct (response_dict (srv w) !! KStr cmd_id) as [r|] eqn:Hr.
  - intros [= <-]. exists 0%nat. rewrite Hr.
    split; [done|]. split; [by eexists | intros m Hm; lia].
  - by destruct (now w - start_time >? timeout).
  - intros [= <-]. exists 0%nat. rewrite Hr.
    split; [done|]. split; [by eexists | intros m Hm; lia].
  - destruct (now w - start_time >? timeout); [done|].
    intros Hrun. apply IH in Hrun as (n & Hs & Hsome & Hfirst).
    exists (S n).
    destruct (time_sleep_traffic 100 w n) as [Htr _].
    split; [congruence|]. split; [done|].
    intros [|m] Hm; [exact Hr|].
    destruct (time_sleep_traffic 100 w m) as [Htr' _].
    rewrite <- Htr'. apply Hfirst. lia.
Qed.

(** C7. A [send_command] that finds the result for its id returns that
    result and takes it out of the table. The wait ends at the first test
    at which the table, as the requests handled so far have left it, holds
    the id; the value returned is the entry that table holds under the id;
    the server state afterwards is that state with this one entry removed
    (queue and other entries as they were), so a lookup of the id finds
    nothing and a second [pop] raises [KeyError]. [get_active_tab] then
    returns the [data] of that result when its [success] is true, and
    raises an [Exception] carrying its [error] when [success] is false. *)
Theorem result_consumed_once_and_decoded
    (w w' : world) (command : string) (params : json) (timeout : Z)
    (response : json) :
  ExtensionBridge.send_command command params timeout w
  = (Returns response, w') ->
  let cmd_id := uuid_source w (uuid_drawn w) in
  let queued := enqueue (command_obj cmd_id command params) (srv w) in
  (exists n,
     let found := serve (traffic n w) queued in
     response_dict found !! KStr cmd_id = Some response /\
     srv w' = Bridge (command_queue found)
                     (delete (KStr cmd_id) (response_dict found)) /\
     forall m, (m < n)%nat ->
       response_dict (serve (traffic m w) queued) !! KStr cmd_id = None) /\
  response_dict (srv w') !! KStr cmd_id = None /\
  ExtensionBridge.pop_response cmd_id w' = (Raises (KeyError cmd_id), w') /\
  (command = "get_active_tab" -> params = JNull -> timeout = 5000 ->
   forall kvs, response = JObj kvs ->
     (forall data,
        dict_get "success" kvs = Some (JBool true) ->
        dict_get "data" kvs = Some data ->
        ExtensionBridge.get_active_tab w = (Returns data, w')) /\
     (forall error,
        dict_get "success" kvs = Some (JBool false) ->
        dict_get "error" kvs = Some error ->
        ExtensionBridge.get_active_tab w = (Raises (Exception error), w'))).
Proof.
  intros Hrun cmd_id queued.
  assert (Hpop : exists n,
             response_dict (serve (traffic n w) queued) !! KStr cmd_id
             = Some response /\
             srv w' = Bridge (command_queue (serve (traffic n w) queued))
                        (delete (KStr cmd_id)
                           (response_dict (serve (traffic n w) queued))) /\
             forall m, (m < n)%nat ->
               response_dict (serve (traffic m w) queued) !! KStr cmd_id
               = None).
  { revert Hrun.
    unfold ExtensionBridge.send_command, ExtensionBridge.queue_command,
      ExtensionBridge.await_response, bind, uuid4_str, time_time, ret.
    cbn -[ExtensionBridge.wait_response ExtensionBridge.wait_fuel].
    fold cmd_id.
    match goal with
    | |- context [ExtensionBridge.wait_response ?f ?i ?c ?s ?t ?w1] =>
        pose proof (wait_response_found_first i c s t f w1) as Hfound;
        destruct (ExtensionBridge.wait_response f i c s t w1)
          as [[[]| |] w2]
    end; try discriminate.
    destruct (Hfound w2 eq_refl) as (n & Hs & _ & Hfirst).
    unfold ExtensionBridge.pop_response.
    destruct (response_dict (srv w2) !! KStr cmd_id) as [r|] eqn:Hr;
      [|discriminate].
    intros [= <- <-]. exists n.
    assert (Hs' : srv w2 = serve (traffic n w) queued) by exact Hs.
    rewrite <- Hs'.
    split; [exact Hr|]. split; [reflexivity | exact Hfirst]. }
  destruct Hpop as (n & Hn & Hsrv & Hfirst).
  assert (Hgone : response_dict (srv w') !! KStr cmd_id = None).
  { rewrite Hsrv. apply lookup_delete_eq. }
  split; [by exists n|]. split; [done|]. split.
  { unfold ExtensionBridge.pop_response. by rewrite Hgone. }
  intros -> -> -> kvs ->. split.
  - intros data Hs Hdata.
    unfold ExtensionBridge.get_active_tab, bind. rewrite Hrun.
    unfold eval, py_get, subscript. rewrite Hs. simpl. by rewrite Hdata.
  - intros error Hs Herr.
    unfold ExtensionBridge.get_active_tab, bind. rewrite Hrun.
    unfold eval, py_get, raise. rewrite Hs. simpl. by rewrite Herr.
Qed.

Lemma result_consumed_once_and_decoded_witness :
  let w := world_extension_lost in
  let w' := snd (ExtensionBridge.send_command "get_active_tab" JNull 5000 w) in
  let v := world_extension_error in
  let v' := snd (ExtensionBridge.send_command "get_active_tab" JNull 5000 v) in
  (ExtensionBridge.send_command "get_active_tab" JNull 5000 w
   = (Returns (success (tab 7 "Google")), w') /\
   response_dict (srv w') !! KStr (uuids 0) = None /\
   ExtensionBridge.get_active_tab w = (Returns (tab 7 "Google"), w')) /\
  (ExtensionBridge.send_command "get_active_tab" JNull 5000 v
   = (Returns (failure "No active tab"), v') /\
   ExtensionBridge.get_active_tab v
   = (Raises (Exception (JStr "No active tab")), v')).
Proof.
  intros w w' v v'.
  assert (Hw : ExtensionBridge.send_command "get_active_tab" JNull 5000 w
               = (Returns (success (tab 7 "Google")), w')).
  { vm_compute. reflexivity. }
  assert (Hv : ExtensionBridge.send_command "get_active_tab" JNull 5000 v
               = (Returns (failure "No active tab"), v')).
  { vm_compute. reflexivity. }
  destruct (result_consumed_once_and_decoded w w' "get_active_tab" JNull 5000
              (success (tab 7 "Google")) Hw)
    as (_ & Hgone & _ & Hdata).
  destruct (result_consumed_once_and_decoded v v' "get_active_tab" JNull 5000
              (failure "No active tab") Hv)
    as (_ & _ & _ & Herror).
  split.
  - split; [exact Hw|]. split; [exact Hgone|].
    exact (proj1 (Hdata eq_refl eq_refl eq_refl _ eq_refl)
             (tab 7 "Google") eq_refl eq_refl).
  - split; [exact Hv|].
    exact (proj2 (Herror eq_refl eq_refl eq_refl _ eq_refl)
             (JStr "No active tab") eq_refl eq_refl).
Defined.





(** ** The orchestrator *)

Section Cleanup.

Lemma keeps_ret {A} (a : A) : keeps_closes (ret a).
Proof. by intros w. Qed.

Lemma keeps_eval {A} (o : outcome A) : keeps_closes (eval o).
Proof. by intros w. Qed.

Lemma keeps_raise {A} (e : exn) : keeps_closes (@raise world A e).
Proof. by intros w. Qed.

Lemma keeps_bind {A B} (c : M world A) (k : A -> M world B) :
  keeps_closes c -> (forall a, keeps_closes (k a)) -> keeps_closes (bind c k).
Proof.
  intros Hc Hk w. unfold bind. specialize (Hc w).
  destruct (c w) as [[a| |] w1]; simpl in *; [|done..].
  by rewrite Hk.
Qed.

Lemma keeps_try_except {A} (c : M world A) :
  keeps_closes c -> keeps_closes (try_except c).
Proof.
  intros Hc w. unfold try_except. specialize (Hc w).
  by destruct (c w) as [[a| |] w1].
Qed.

Lemma keeps_on_client {A} (m : M cdp_client A) :
  (forall c, closes (ws (snd (m c))) = closes (ws c)) ->
  keeps_closes (on_client m).
Proof.
  intros Hm w. unfold on_client, closes_of. specialize (Hm (client w)).
  by destruct (m (client w)).
Qed.

Lemma keeps_CDPClient_init : keeps_closes CDPClient_init.
Proof. intros w. unfold CDPClient_init. by destruct (endpoint_up w). Qed.

Lemma keeps_time_sleep ms : keeps_closes (time_sleep ms).
Proof. intros w. unfold time_sleep. by destruct (schedule w). Qed.

Lemma cdp_send_command_closes method params c :
  closes (ws (snd (CDPClient.send_command method params c))) = closes (ws c).
Proof.
  destruct c as [[conn snt inc cl] n].
  unfold CDPClient.send_command, bind, ws_send, ws_recv, eval, ret. simpl.
  destruct conn; [|done]. by destruct inc as [|[j|raw] rest].
Qed.

Lemma cdp_bind_closes {A B} (m : M cdp_client A) (k : A -> M cdp_client B) :
  (forall c, closes (ws (snd (m c))) = closes (ws c)) ->
  (forall a c, closes (ws (snd (k a c))) = closes (ws c)) ->
  forall c, closes (ws (snd (bind m k c))) = closes (ws c).
Proof.
  intros Hm Hk c. unfold bind. specialize (Hm c).
  destruct (m c) as [[a| |] c1]; simpl in *; [|done..].
  by rewrite Hk.
Qed.

Lemma cdp_send_key_closes key_name text code key_code c :
  closes (ws (snd (CDPClient.send_key key_name text code key_code c)))
  = closes (ws c).
Proof.
  unfold CDPClient.send_key.
  apply cdp_bind_closes; [apply cdp_send_command_closes | intros _].
  apply cdp_bind_closes.
  - destruct (truthy text); [|done].
    apply cdp_bind_closes; [apply cdp_send_command_closes | done].
  - intros _. apply cdp_bind_closes; [apply cdp_send_command_closes | done].
Qed.

Lemma wait_response_client cmd_id command start_time timeout fuel : forall w,
  client (snd (ExtensionBridge.wait_response fuel cmd_id command start_time
                 timeout w)) = client w.
Proof.
  induction fuel as [|fuel IH]; intros w; simpl;
    destruct (response_dict (srv w) !! KStr cmd_id); try done;
    destruct (now w - start_time >? timeout); try done.
  rewrite IH. apply time_sleep_frame.
Qed.

Lemma keeps_bridge_send_command command params timeout :
  keeps_closes (ExtensionBridge.send_command command params timeout).
Proof.
  intros w.
  unfold ExtensionBridge.send_command, ExtensionBridge.queue_command,
    ExtensionBridge.await_response, bind, uuid4_str, time_time, ret, closes_of.
  cbn -[ExtensionBridge.wait_response ExtensionBridge.wait_fuel].
  match goal with
  | |- context [ExtensionBridge.wait_response ?f ?i ?c ?s ?t ?w1] =>
      pose proof (wait_response_client i c s t f w1) as Hcl;
      destruct (ExtensionBridge.wait_response f i c s t w1) as [[[]| |] w2]
  end; simpl in *; try by rewrite Hcl.
  unfold ExtensionBridge.pop_response.
  destruct (response_dict (srv w2) !! _); simpl; by rewrite Hcl.
Qed.

Lemma keeps_get_active_tab : keeps_closes ExtensionBridge.get_active_tab.
Proof.
  unfold ExtensionBridge.get_active_tab.
  apply keeps_bind; [apply keeps_bridge_send_command | intros response].
  apply keeps_bind; [apply keeps_eval | intros success].
  destruct (truthy success); [apply keeps_eval|].
  apply keeps_bind; [apply keeps_eval | intros error; apply keeps_raise].
Qed.

Lemma cleanup_bind {A} (c : M world A) (k : A -> M world report) :
  keeps_closes c -> (forall a, closes_at_cleanup (k a)) ->
  closes_at_cleanup (bind c k).
Proof.
  intros Hc Hk w. unfold bind. specialize (Hc w).
  destruct (c w) as [[a| |] w1]; simpl in *; [|lia..].
  by rewrite Hk, Hc.
Qed.

Lemma cleanup_verdict (V : M world report) :
  keeps_closes V ->
  (forall w, fst (V w) <> Returns CouldNotGetTab) ->
  closes_at_cleanup
    (bind V (fun verdict =>
               bind (on_client CDPClient.close) (fun _ => ret verdict))).
Proof.
  intros HV Hne w. specialize (HV w). specialize (Hne w).
  unfold bind, on_client, CDPClient.close, ws_close, ret, closes_of in *.
  destruct (V w) as [[v| |] w1]; simpl in *; try lia.
  destruct v; [congruence | simpl; lia..].
Qed.

(** On every run, [run_test] closes the connection once if it gets to its
    cleanup step, i.e. prints a verdict, and not at all on any other exit. *)
Lemma run_test_closes_at_cleanup : closes_at_cleanup run_test.
Proof.
  unfold run_test.
  apply cleanup_bind; [apply keeps_CDPClient_init | intros _].
  apply cleanup_bind;
    [apply keeps_on_client; intros c; apply cdp_send_command_closes | intros _].
  apply cleanup_bind.
  { apply keeps_try_except.
    apply keeps_bind; [apply keeps_get_active_tab | intros before_tab].
    apply keeps_bind; [apply keeps_eval | intros _; apply keeps_ret]. }
  intros [e|before_tab].
  { intros w. simpl. unfold closes_of. simpl. lia. }
  do 3 (apply cleanup_bind;
        [apply keeps_on_client; intros c; apply cdp_send_key_closes | intros _];
        apply cleanup_bind; [apply keeps_time_sleep | intros _]).
  apply cleanup_bind; [apply keeps_time_sleep | intros _].
  apply cleanup_bind; [apply keeps_get_active_tab | intros after_tab].
  apply cleanup_bind; [apply keeps_eval | intros _].
  apply cleanup_bind; [apply keeps_eval | intros before_id].
  apply cleanup_bind; [apply keeps_eval | intros after_id].
  apply cleanup_verdict.
  - destruct (negb (py_eq before_id after_id));
      repeat (apply keeps_bind; [apply keeps_eval | intros _]);
      apply keeps_ret.
  - intros w. unfold bind, eval, ret.
    destruct (negb (py_eq before_id after_id));
      destruct (subscript before_tab "title");
      destruct (subscript after_tab "title"); simpl; discriminate.
Qed.

End Cleanup.

(** C1. [run_test] reaches [cdp.close()] only when every step before it
    succeeded. When the first bridge query fails (nobody polls the bridge),
    the handler returns with the connection still open and never closed;
    when the second bridge query fails, the exception leaves [run_test]
    before the cleanup step, again with the connection open and never
    closed. On the run in which both queries are answered the connection is
    closed once. *)
Theorem run_test_skips_cleanup_on_failure :
  (fst (run_test world_no_extension) = Returns CouldNotGetTab /\
   closes (ws (client (snd (run_test world_no_extension)))) = 0%nat /\
   connected (ws (client (snd (run_test world_no_extension)))) = true) /\
  (fst (run_test world_extension_lost)
   = Raises (TimeoutError "Extension did not respond to get_active_tab") /\
   closes (ws (client (snd (run_test world_extension_lost)))) = 0%nat /\
   connected (ws (client (snd (run_test world_extension_lost)))) = true) /\
  (fst (run_test world_tab_switched) = Returns TestPassed /\
   closes (ws (client (snd (run_test world_tab_switched)))) = 1%nat /\
   connected (ws (client (snd (run_test world_tab_switched)))) = false).
Proof. vm_compute. repeat split. Qed.

(** ** Further properties of the bridge *)

Section BridgeMore.

Lemma sleeps_duration_length ss : 100 * Z.of_nat (length ss) <= sleeps_duration 100 ss.
Proof. induction ss as [|s ss IH]; simpl in *; lia. Qed.

Lemma sleeps_duration_app ss1 ss2 :
  sleeps_duration 100 (ss1 ++ ss2)
  = sleeps_duration 100 ss1 + sleeps_duration 100 ss2.
Proof. induction ss1 as [|s ss1 IH]; simpl in *; lia. Qed.

Lemma wait_response_raises cmd_id command start_time timeout fuel : forall w e w',
  ExtensionBridge.wait_response fuel cmd_id command start_time timeout w
  = (Raises e, w') ->
  e = TimeoutError (timeout_message command) /\
  response_dict (srv w') !! KStr cmd_id = None.
Proof.
  induction fuel as [|fuel IH]; intros w e w'; simpl;
    destruct (response_dict (srv w) !! KStr cmd_id) eqn:Hk; try done;
    destruct (now w - start_time >? timeout); try done;
    try (intros [= <- <-]; by split).
  apply IH.
Qed.

Lemma wait_response_deadline cmd_id command start_time timeout d fuel : forall w,
  Forall (fun s => Z.of_nat (overshoot s) <= d) (schedule w) ->
  0 <= d ->
  now w - start_time <= Z.max 0 timeout + 100 + d ->
  now (snd (ExtensionBridge.wait_response fuel cmd_id command start_time
              timeout w)) - start_time
  <= Z.max 0 timeout + 100 + d.
Proof.
  induction fuel as [|fuel IH]; intros w Hd Hd0 Hb; simpl;
    destruct (response_dict (srv w) !! KStr cmd_id); try done;
    destruct (Z.gtb_spec (now w - start_time) timeout); try done.
  destruct (time_sleep_now 100 w d Hd Hd0) as [Hnow Hd'].
  apply IH; [done | done | lia].
Qed.

Lemma wait_response_finds cmd_id command start_time timeout s rest r pre :
  forall fuel w,
  schedule w = pre ++ s :: rest ->
  response_dict (srv w) !! KStr cmd_id = None ->
  Forall (fun p => never_submits (KStr cmd_id) (arrivals p)) pre ->
  now w - start_time + sleeps_duration 100 pre <= timeout ->
  (length pre < fuel)%nat ->
  response_dict
    (serve (arrivals s) (serve (concat (arrivals <$> pre)) (srv w)))
  !! KStr cmd_id = Some r ->
  ExtensionBridge.wait_response fuel cmd_id command start_time timeout w =
  (Returns tt,
   World (serve (arrivals s) (serve (concat (arrivals <$> pre)) (srv w)))
         (client w) (now w + sleeps_duration 100 (pre ++ [s])) rest
         (uuid_source w) (uuid_drawn w) (endpoint_up w)).
Proof.
  induction pre as [|p pre IH]; intros fuel w Hsch Habs Hpre Htime Hfuel Hr;
    (destruct fuel as [|fuel]; [simpl in Hfuel; lia|]).
  - simpl in *. rewrite Habs.
    destruct (Z.gtb_spec (now w - start_time) timeout); [lia|].
    unfold time_sleep. rewrite Hsch. simpl.
    destruct fuel; simpl; rewrite Hr; do 2 f_equal; lia.
  - pose proof (sleeps_duration_length pre) as Hlen.
    simpl in *. rewrite Habs.
    destruct (Z.gtb_spec (now w - start_time) timeout); [lia|].
    unfold time_sleep. rewrite Hsch. simpl.
    apply Forall_cons in Hpre as [Hp Hpre].
    rewrite serve_app in Hr.
    rewrite (IH fuel); simpl; try done.
    + rewrite serve_app. do 2 f_equal. lia.
    + by rewrite serve_other_key.
    + lia.
    + lia.
Qed.

End BridgeMore.

(** X1. On every run, whatever the browser and the extension do,
    [run_test] calls [close] on the connection exactly once when it gets to
    its cleanup step (a verdict, passed or failed, was printed), and not at
    all on every other exit: the early return when the first tab query
    fails, and every exception or blocked call before the cleanup step. *)
Theorem run_test_closes_once_iff_verdict (w : world) :
  closes_of (snd (run_test w)) =
  (closes_of w + (if reaches_cleanup (fst (run_test w)) then 1 else 0))%nat /\
  (fst (run_test w) = Returns CouldNotGetTab ->
   closes_of (snd (run_test w)) = closes_of w).
Proof.
  pose proof (run_test_closes_at_cleanup w) as H. split; [exact H|].
  intros Hret. rewrite H, Hret. simpl. lia.
Qed.

Lemma run_test_closes_once_iff_verdict_witness :
  closes_of (snd (run_test world_extension_error))
  = closes_of world_extension_error.
Proof.
  apply (run_test_closes_once_iff_verdict world_extension_error).
  vm_compute. reflexivity.
Defined.

(** X2. For every finite timeout (a number of milliseconds), a bridge
    [send_command] comes to an end, and in one of two ways only: it returns
    a response, or it raises the [TimeoutError] that names the command (never
    a [KeyError] from the final [pop], since the wait only ends normally once
    the id is in the table). Either way it drew exactly one id and did not
    touch the CDP client object. *)
Theorem bridge_send_command_returns_or_times_out
    (w : world) (command : string) (params : json) (timeout : Z) :
  let o := fst (ExtensionBridge.send_command command params timeout w) in
  let w' := snd (ExtensionBridge.send_command command params timeout w) in
  match o with
  | Returns _ => True
  | Raises e => e = TimeoutError (timeout_message command)
  | Blocks => False
  end /\
  uuid_drawn w' = S (uuid_drawn w) /\
  uuid_source w' = uuid_source w /\
  client w' = client w.
Proof.
  unfold ExtensionBridge.send_command, ExtensionBridge.queue_command,
    ExtensionBridge.await_response, bind, uuid4_str, time_time, ret.
  cbn -[ExtensionBridge.wait_response ExtensionBridge.wait_fuel].
  match goal with
  | |- context [ExtensionBridge.wait_response ?f ?i ?c ?s ?t ?w1] =>
      pose proof (wait_response_terminates i c s t f w1) as Hterm;
      pose proof (wait_response_uuid i c s t f w1) as [Hu Hn];
      pose proof (wait_response_client i c s t f w1) as Hcl;
      pose proof (wait_response_raises i c s t f w1) as Hraise;
      pose proof (wait_response_found i c s t f w1) as Hfound;
      destruct (ExtensionBridge.wait_response f i c s t w1) as [[[]|e|] w2]
  end; simpl in *.
  - destruct (Hfound w2 eq_refl) as ([r Hr] & _).
    unfold ExtensionBridge.pop_response. rewrite Hr. simpl.
    by repeat split.
  - destruct (Hraise e w2 eq_refl) as [-> _]. by repeat split.
  - exfalso. apply Hterm; [|done]. pose proof (wait_fuel_enough timeout). lia.
Qed.

(** X3. A bridge [send_command] never outlasts its deadline by more than
    one sleep: if every sleep overruns by at most [d] milliseconds, the call
    ends, with a response or a timeout, no later than
    [max 0 timeout + 100 + d] milliseconds after it started. *)
Theorem bridge_send_command_deadline
    (w : world) (command : string) (params : json) (timeout d : Z) :
  Forall (fun s => Z.of_nat (overshoot s) <= d) (schedule w) ->
  0 <= d ->
  now (snd (ExtensionBridge.send_command command params timeout w)) - now w
  <= Z.max 0 timeout + 100 + d.
Proof.
  intros Hd Hd0.
  unfold ExtensionBridge.send_command, ExtensionBridge.queue_command,
    ExtensionBridge.await_response, bind, uuid4_str, time_time, ret.
  cbn -[ExtensionBridge.wait_response ExtensionBridge.wait_fuel].
  match goal with
  | |- context [ExtensionBridge.wait_response ?f ?i ?c ?s ?t ?w1] =>
      pose proof (wait_response_deadline i c s t d f w1 Hd Hd0) as Hb;
      destruct (ExtensionBridge.wait_response f i c s t w1) as [[[]|e|] w2]
  end; simpl in *; try (apply Hb; lia).
  unfold ExtensionBridge.pop_response.
  destruct (response_dict (srv w2) !! _); simpl; apply Hb; lia.
Qed.

Lemma bridge_send_command_deadline_witness :
  now (snd (ExtensionBridge.send_command "get_all_tabs" JNull 250
              world_tab_switched)) - 0
  <= Z.max 0 250 + 100 + 3.
Proof.
  apply (bridge_send_command_deadline world_tab_switched "get_all_tabs" JNull
           250 3).
  - repeat constructor; simpl; lia.
  - lia.
Defined.

(** X4. A result submitted before the deadline is returned. Let the
    extension's answer for the command's id arrive during some sleep of the
    wait loop, after sleeps [pre] that bring no answer for that id and that
    together end before the deadline, by a millisecond (the unit of the
    clock) at the least, which stands for the time the code spends between
    its clock reads. Then [send_command] returns the submitted payload right
    after that sleep, even if that sleep itself ended past the deadline, and
    leaves the table without the entry. *)
Theorem bridge_send_command_returns_submitted_result
    (w : world) (command : string) (params : json) (timeout : Z)
    (pre : list slot) (s : slot) (rest : list slot) (r : json) :
  let cmd_id := uuid_source w (uuid_drawn w) in
  let b := serve (arrivals s)
             (serve (concat (arrivals <$> pre))
                (enqueue (command_obj cmd_id command params) (srv w))) in
  schedule w = pre ++ s :: rest ->
  response_dict (srv w) !! KStr cmd_id = None ->
  Forall (fun p => never_submits (KStr cmd_id) (arrivals p)) pre ->
  sleeps_duration 100 pre < timeout ->
  response_dict b !! KStr cmd_id = Some r ->
  ExtensionBridge.send_command command params timeout w =
  (Returns r,
   World (Bridge (command_queue b) (delete (KStr cmd_id) (response_dict b)))
         (client w) (now w + sleeps_duration 100 (pre ++ [s])) rest
         (uuid_source w) (S (uuid_drawn w)) (endpoint_up w)).
Proof.
  intros cmd_id b Hsch Habs Hpre Htime Hr.
  unfold ExtensionBridge.send_command, ExtensionBridge.queue_command,
    ExtensionBridge.await_response, bind, uuid4_str, time_time, ret.
  cbn -[ExtensionBridge.wait_response ExtensionBridge.wait_fuel].
  fold cmd_id.
  erewrite (wait_response_finds cmd_id command _ timeout s rest r pre);
    simpl; try done.
  - unfold ExtensionBridge.pop_response. simpl. fold b. by rewrite Hr.
  - lia.
  - pose proof (sleeps_duration_length pre).
    pose proof (wait_fuel_enough timeout). lia.
Qed.

Lemma bridge_send_command_returns_submitted_result_witness :
  ExtensionBridge.send_command "get_active_tab" JNull 300
    (World bridge_init browser 0
       [idle; Slot 40 []; answers 0 (success (tab 7 "Google")); idle]
       uuids 0 true)
  = (Returns (success (tab 7 "Google")),
     World (Bridge [] (delete (KStr (uuids 0))
                         {[KStr (uuids 0) := success (tab 7 "Google")]}))
           browser (0 + sleeps_duration 100
                          ([idle; Slot 40 []]
                           ++ [answers 0 (success (tab 7 "Google"))]))
           [idle] uuids 1 true).
Proof.
  apply (bridge_send_command_returns_submitted_result
           (World bridge_init browser 0
              [idle; Slot 40 []; answers 0 (success (tab 7 "Google")); idle]
              uuids 0 true)
           "get_active_tab" JNull 300 [idle; Slot 40 []]
           (answers 0 (success (tab 7 "Google"))) [idle]
           (success (tab 7 "Google"))).
  - reflexivity.
  - reflexivity.
  - repeat constructor.
  - simpl. lia.
  - reflexivity.
Defined.

(** X5. [post_response] rejects exactly the bodies that lack a [result], lack
    an [id], are not objects, or carry an unhashable id (a list or an
    object). A rejected body raises and leaves queue and table as they
    were; a missing [result] is reported as [KeyError('result')] even when
    the [id] is missing too; the handler never touches the queue. *)
Theorem post_response_rejects_malformed (data : json) (b : bridge) :
  (submission_key data = None <->
   exists e, fst (post_response data b) = Raises e) /\
  (submission_key data = None -> snd (post_response data b) = b) /\
  command_queue (snd (post_response data b)) = command_queue b /\
  (forall kvs, data = JObj kvs -> dict_get "result" kvs = None ->
   fst (post_response data b) = Raises (KeyError "result")) /\
  (forall kvs r, data = JObj kvs -> dict_get "result" kvs = Some r ->
   dict_get "id" kvs = None ->
   fst (post_response data b) = Raises (KeyError "id")).
Proof.
  unfold submission_key, post_response, subscript.
  repeat split.
  - destruct data as [| | | | |kvs]; try (intros _; by eexists).
    destruct (dict_get "result" kvs); [|intros _; by eexists].
    destruct (dict_get "id" kvs) as [i|]; [|intros _; by eexists].
    destruct (py_hash i); [done | intros _; by eexists].
  - destruct data as [| | | | |kvs]; try done.
    destruct (dict_get "result" kvs); [|done].
    destruct (dict_get "id" kvs) as [i|]; [|done].
    destruct (py_hash i); [|done]. by intros [e He].
  - destruct data as [| | | | |kvs]; try done.
    destruct (dict_get "result" kvs); [|done].
    destruct (dict_get "id" kvs) as [i|]; [|done].
    by destruct (py_hash i).
  - destruct data as [| | | | |kvs]; try done.
    destruct (dict_get "result" kvs); [|done].
    destruct (dict_get "id" kvs) as [i|]; [|done].
    by destruct (py_hash i).
  - intros kvs -> Hr. by rewrite Hr.
  - intros kvs r -> Hr Hi. by rewrite Hr, Hi.
Qed.

Lemma post_response_rejects_malformed_witness :
  let b := Bridge [command_obj "a" "get_active_tab" JNull]
             {[KStr "a" := success JNull]} in
  post_response (JObj [("id", JStr "a")]) b = (Raises (KeyError "result"), b).
Proof.
  intros b.
  destruct (post_response_rejects_malformed (JObj [("id", JStr "a")]) b)
    as (_ & Hsame & _ & Hkey & _).
  rewrite (surjective_pairing (post_response (JObj [("id", JStr "a")]) b)).
  rewrite (Hkey [("id", JStr "a")] eq_refl eq_refl).
  rewrite (Hsame eq_refl). reflexivity.
Defined.

(** X6. [get_all_tabs] and [get_active_tab] decode the response of their
    command alike and never block for ever. A timeout of [send_command]
    passes through unchanged. A response that is not an object raises
    [AttributeError]. When [success] is truthy the [data] is returned, or
    [KeyError('data')] raised if there is none. When [success] is falsy or
    absent an [Exception] is raised that carries the response's [error], or
    the text "Unknown error" when there is none. *)
Theorem tab_queries_decode (w : world) :
  let decode (response : json) : outcome json :=
    match response with
    | JObj kvs =>
        if truthy (match dict_get "success" kvs with
                   | Some success => success
                   | None => JNull
                   end)
        then match dict_get "data" kvs with
             | Some data => Returns data
             | None => Raises (KeyError "data")
             end
        else Raises (Exception (match dict_get "error" kvs with
                                | Some error => error
                                | None => JStr "Unknown error"
                                end))
    | _ => Raises AttributeError
    end in
  let expected (command : string) : outcome json * world :=
    match ExtensionBridge.send_command command JNull 5000 w with
    | (Returns response, w') => (decode response, w')
    | (Raises e, w') => (Raises e, w')
    | (Blocks, w') => (Blocks, w')
    end in
  ExtensionBridge.get_all_tabs w = expected "get_all_tabs" /\
  ExtensionBridge.get_active_tab w = expected "get_active_tab" /\
  fst (ExtensionBridge.get_all_tabs w) <> Blocks /\
  fst (ExtensionBridge.get_active_tab w) <> Blocks.
Proof.
  intros decode expected.
  assert (Hall : ExtensionBridge.get_all_tabs w = expected "get_all_tabs").
  { unfold ExtensionBridge.get_all_tabs, expected, bind at 1.
    destruct (ExtensionBridge.send_command _ _ _ w) as [[response| |] w'];
      [|done..].
    unfold bind, eval, raise, py_get, subscript, decode.
    destruct response as [| | | | |kvs]; try done. simpl.
    destruct (truthy _); [|done]. by destruct (dict_get "data" kvs). }
  assert (Hact : ExtensionBridge.get_active_tab w = expected "get_active_tab").
  { unfold ExtensionBridge.get_active_tab, expected, bind at 1.
    destruct (ExtensionBridge.send_command _ _ _ w) as [[response| |] w'];
      [|done..].
    unfold bind, eval, raise, py_get, subscript, decode.
    destruct response as [| | | | |kvs]; try done. simpl.
    destruct (truthy _); [|done]. by destruct (dict_get "data" kvs). }
  assert (Hdecode : forall response, decode response <> Blocks).
  { intros response. unfold decode.
    destruct response as [| | | | |kvs]; try done.
    destruct (truthy _); [|done]. by destruct (dict_get "data" kvs). }
  assert (Hexp : forall command, fst (expected command) <> Blocks).
  { intros command. unfold expected.
    pose proof (send_command_terminates command JNull 5000 w) as Ht.
    destruct (ExtensionBridge.send_command command JNull 5000 w)
      as [[response| |] w']; simpl in *; [apply Hdecode | done | done]. }
  split; [exact Hall|]. split; [exact Hact|].
  split; [rewrite Hall | rewrite Hact]; apply Hexp.
Qed.

(** X7. Every [CDPClient.send_command] uses up a request id, whatever
    becomes of the call: the counter is one higher afterwards also when the
    send raised, the reply was not JSON, or no reply came. On an open
    connection exactly one request is sent; on a closed one (after
    [close()], say) the call raises before anything is sent. *)
Theorem cdp_send_command_consumes_id
    (c : cdp_client) (method : string) (params : json) :
  let c' := snd (CDPClient.send_command method params c) in
  cmd_id c' = cmd_id c + 1 /\
  closes (ws c') = closes (ws c) /\
  (if connected (ws c)
   then sent (ws c')
        = sent (ws c) ++ [Text (CDPClient.command (cmd_id c + 1) method params)]
   else fst (CDPClient.send_command method params c)
        = Raises WebSocketConnectionClosedException /\ ws c' = ws c) /\
  fst (CDPClient.send_command method params (snd (CDPClient.close c)))
  = Raises WebSocketConnectionClosedException.
Proof.
  split; [apply send_command_cmd_id|].
  split; [apply cdp_send_command_closes|].
  split; [|reflexivity].
  destruct (connected (ws c)) eqn:Hc; [by apply send_command_sent|].
  destruct c as [[conn snt inc cl] n]. simpl in Hc. subst conn.
  split; reflexivity.
Qed.

(** X8. Whatever the browser delivers, the requests [send_key] sends on an
    open connection are a leading part of the numbered sequence key-down,
    character (if any), key-up: one request more than there are JSON frames
    at the head of the incoming stream, and never more than the whole
    sequence. So key-up is sent only after every earlier event was sent and
    answered; when an answer is missing the call blocks, and when it is not
    JSON the call raises, in both cases with the key left down. *)
Theorem send_key_sends_prefix
    (c : cdp_client) (key_name text code key_code : json) :
  connected (ws c) = true ->
  let events := key_press_events key_name text code key_code in
  let answered := leading_texts (incoming (ws c)) in
  let call := CDPClient.send_key key_name text code key_code c in
  sent (ws (snd call)) =
  sent (ws c) ++ take (S answered) (number_from (cmd_id c + 1) events) /\
  fst call =
  (if (length events <=? answered)%nat then Returns tt
   else match incoming (ws c) !! answered with
        | Some _ => Raises JSONDecodeError
        | None => Blocks
        end).
Proof.
  destruct c as [[conn snt inc cl] n]. simpl. intros ->.
  unfold CDPClient.send_key. rewrite !key_event_built.
  unfold key_press_events.
  destruct (truthy text);
    destruct inc as [|[j1|r1] [|[j2|r2] [|[j3|r3] inc]]];
    unfold bind, CDPClient.send_command, ws_send, ws_recv, eval, ret;
    simpl; rewrite <- ?app_assoc; split; reflexivity.
Qed.

Lemma send_key_sends_prefix_witness :
  let c := fresh_client [reply 1; Garbled "<html>"; reply 3] in
  let call :=
    CDPClient.send_key (JStr "t") (JStr "t") (JStr "KeyT") (JNum 84) c in
  sent (ws (snd call)) =
  [] ++ take 2 (number_from (0 + 1)
                  (key_press_events (JStr "t") (JStr "t") (JStr "KeyT")
                     (JNum 84))) /\
  fst call = Raises JSONDecodeError.
Proof.
  intros c call.
  apply (send_key_sends_prefix c (JStr "t") (JStr "t") (JStr "KeyT") (JNum 84)).
  reflexivity.
Defined.

(** X9. The verdict of [run_test]. On every run in which the setup
    succeeds, both tab queries return a tab that has a [title] and an [id],
    and the key presses in between are answered, however and whenever
    browser and extension do so, the run prints "passed" if the two ids
    differ under Python's [!=] and "failed" if they are equal, and then
    closes the connection; nothing else is changed after the second
    query. *)
Theorem run_test_verdict
    (w w1 w2 w3 w4 : world) (front before_tab after_tab a ta b tb : json) :
  run_test_setup w = (Returns front, w1) ->
  ExtensionBridge.get_active_tab w1 = (Returns before_tab, w2) ->
  subscript before_tab "title" = Returns ta ->
  subscript before_tab "id" = Returns a ->
  run_test_action w2 = (Returns tt, w3) ->
  ExtensionBridge.get_active_tab w3 = (Returns after_tab, w4) ->
  subscript after_tab "title" = Returns tb ->
  subscript after_tab "id" = Returns b ->
  run_test w =
  (Returns (if py_eq a b then TestFailed else TestPassed),
   snd (on_client CDPClient.close w4)).
Proof.
  intros Hsetup Hbefore Hta Ha Haction Hafter Htb Hb.
  unfold run_test_setup in Hsetup. unfold bind at 1 in Hsetup.
  destruct (CDPClient_init w) as [[[]| |] w0] eqn:E0; try discriminate.
  unfold run_test_action in Haction.
  unfold bind at 1 in Haction.
  destruct (on_client _ w2) as [[[]| |] s1] eqn:E1; try discriminate.
  unfold bind at 1 in Haction.
  destruct (time_sleep 500 s1) as [[[]| |] s2] eqn:E2; try discriminate.
  unfold bind at 1 in Haction.
  destruct (on_client _ s2) as [[[]| |] s3] eqn:E3; try discriminate.
  unfold bind at 1 in Haction.
  destruct (time_sleep 500 s3) as [[[]| |] s4] eqn:E4; try discriminate.
  unfold bind at 1 in Haction.
  destruct (on_client _ s4) as [[[]| |] s5] eqn:E5; try discriminate.
  unfold bind at 1 in Haction.
  destruct (time_sleep 500 s5) as [[[]| |] s6] eqn:E6; try discriminate.
  unfold run_test.
  unfold bind at 1. rewrite E0.
  unfold bind at 1. rewrite Hsetup.
  unfold bind at 1, try_except, bind at 1. rewrite Hbefore.
  unfold bind at 1, eval at 1. rewrite Hta. unfold ret at 1. simpl is_Exception.
  cbv beta iota.
  unfold bind at 1. rewrite E1.
  unfold bind at 1. rewrite E2.
  unfold bind at 1. rewrite E3.
  unfold bind at 1. rewrite E4.
  unfold bind at 1. rewrite E5.
  unfold bind at 1. rewrite E6.
  unfold bind at 1. rewrite Haction.
  unfold bind at 1. rewrite Hafter.
  unfold bind, eval, ret. rewrite Hta, Htb, Ha, Hb.
  destruct (py_eq a b); reflexivity.
Qed.

Lemma run_test_verdict_witness :
  fst (run_test world_tab_switched)
  = Returns (if py_eq (JNum 7) (JNum 8) then TestFailed else TestPassed).
Proof.
  pose (w1 := snd (run_test_setup world_tab_switched)).
  pose (w2 := snd (ExtensionBridge.get_active_tab w1)).
  pose (w3 := snd (run_test_action w2)).
  pose (w4 := snd (ExtensionBridge.get_active_tab w3)).
  rewrite (run_test_verdict world_tab_switched w1 w2 w3 w4
             (JObj [("id", JNum 1); ("result", JObj [])])
             (tab 7 "Google") (tab 8 "Wikipedia")
             (JNum 7) (JStr "Google") (JNum 8) (JStr "Wikipedia"));
    [reflexivity | vm_compute; reflexivity ..].
Defined.

(** X10. [send_key] of cdp-send-sequence.py sends the same events as the
    method of [CDPClient], numbered [first] (key-down), [first + 1]
    (character, when there is one) and [first + 2] (key-up, also when no
    character was sent, so [first + 1] is then skipped). It takes one frame
    off the connection per request without parsing it: the frames need not
    be JSON, and further frames stay unread. *)
Theorem send_sequence_send_key_ids
    (s : websocket) (key_name text code key_code : json) (first : Z)
    (frames rest : list frame) :
  connected s = true ->
  incoming s = frames ++ rest ->
  length frames = (if truthy text then 3%nat else 2%nat) ->
  let s' := snd (SendSequence.send_key key_name text code key_code first s) in
  let requests := drop (length (sent s)) (sent s') in
  fst (SendSequence.send_key key_name text code key_code first s) = Returns tt /\
  incoming s' = rest /\
  omap request_id requests =
  [JNum first] ++ (if truthy text then [JNum (first + 1)] else [])
  ++ [JNum (first + 2)] /\
  omap request_params requests =
  JObj <$> key_press_events key_name text code key_code.
Proof.
  intros Hc Hin Hlen s' requests. subst s' requests.
  rewrite <- key_press_events_length with (key_name := key_name)
    (code := code) (key_code := key_code) in Hlen.
  rewrite (send_sequence_key_event_sends s key_name text code key_code first
             frames rest Hc Hin Hlen).
  simpl. rewrite drop_app_length.
  unfold key_press_events. by destruct (truthy text).
Qed.

Lemma send_sequence_send_key_ids_witness :
  let s := WebSocket true [] [Garbled "ok"; Garbled "ok"; reply 7] 0 in
  let s' :=
    snd (SendSequence.send_key (JStr "Enter") JNull (JStr "Enter") (JNum 13)
           30 s) in
  incoming s' = [reply 7] /\
  omap request_id (drop 0 (sent s')) = [JNum 30] ++ [] ++ [JNum (30 + 2)].
Proof.
  intros s s'.
  destruct (send_sequence_send_key_ids s (JStr "Enter") JNull (JStr "Enter")
              (JNum 13) 30 [Garbled "ok"; Garbled "ok"] [reply 7]
              eq_refl eq_refl eq_refl) as (_ & Hrest & Hids & _).
  split; [exact Hrest | exact Hids].
Defined.

(** ** The direct background-page query (cdp-direct-bg.py) *)

Section DirectBgFacts.

Lemma wait_reply_skips (reply : json) (kvs : pydict) (rest : list frame)
    (skipped : list json) : forall fuel st,
  connected (sock st) = true ->
  incoming (sock st) = (Text <$> skipped) ++ Text reply :: rest ->
  forallb passed_over skipped = true ->
  reply = JObj kvs ->
  py_eq (match dict_get "id" kvs with Some i => i | None => JNull end) (JNum 1)
  = true ->
  (length skipped < fuel)%nat ->
  DirectBg.wait_reply fuel st =
  (Returns reply,
   Script (WebSocket true (sent (sock st)) rest (closes (sock st)))
          (printed st)).
Proof.
  induction skipped as [|m skipped IH]; intros fuel [[conn snt inc cl] out];
    simpl; intros -> -> Hskip -> Hid Hfuel;
    (destruct fuel as [|fuel]; [lia|]).
  - unfold DirectBg.wait_reply, bind, on_sock, SendSequence.recv, eval, ret.
    simpl. by rewrite Hid.
  - apply andb_prop in Hskip as [Hm Hskip].
    destruct m as [| | | | |mkvs]; try discriminate Hm. simpl in Hm.
    apply negb_true_iff in Hm.
    change (DirectBg.wait_reply (S fuel)) with
      (f <~ on_sock SendSequence.recv ;;
       msg <~ eval (json_loads f) ;;
       id <~ eval (py_get msg "id" JNull) ;;
       if py_eq id (JNum 1) then ret msg else DirectBg.wait_reply fuel).
    unfold bind at 1 2 3, on_sock, SendSequence.recv, eval. simpl.
    rewrite Hm.
    apply (IH fuel (Script (WebSocket true snt
             ((Text <$> skipped) ++ Text (JObj kvs) :: rest) cl) out));
      simpl; try done. lia.
Qed.

Lemma wait_reply_starves (skipped : list json) : forall fuel st,
  connected (sock st) = true ->
  incoming (sock st) = Text <$> skipped ->
  forallb passed_over skipped = true ->
  (length skipped < fuel)%nat ->
  DirectBg.wait_reply fuel st =
  (Blocks,
   Script (WebSocket true (sent (sock st)) [] (closes (sock st)))
          (printed st)).
Proof.
  induction skipped as [|m skipped IH]; intros fuel [[conn snt inc cl] out];
    simpl; intros -> -> Hskip Hfuel;
    (destruct fuel as [|fuel]; [lia|]).
  - reflexivity.
  - apply andb_prop in Hskip as [Hm Hskip].
    destruct m as [| | | | |mkvs]; try discriminate Hm. simpl in Hm.
    apply negb_true_iff in Hm.
    change (DirectBg.wait_reply (S fuel)) with
      (f <~ on_sock SendSequence.recv ;;
       msg <~ eval (json_loads f) ;;
       id <~ eval (py_get msg "id" JNull) ;;
       if py_eq id (JNum 1) then ret msg else DirectBg.wait_reply fuel).
    unfold bind at 1 2 3, on_sock, SendSequence.recv, eval. simpl.
    rewrite Hm.
    apply (IH fuel (Script (WebSocket true snt (Text <$> skipped) cl) out));
      simpl; try done. lia.
Qed.


End DirectBgFacts.



(** X12. When request 1 is never answered (every frame that arrives is an
    object with another id or none), cdp-direct-bg.py reads all of them and
    then blocks in [recv] for ever: it has printed only the connection
    message and never calls [close]. *)
Theorem direct_bg_blocks_without_reply (st : script) (skipped : list json) :
  connected (sock st) = true ->
  incoming (sock st) = Text <$> skipped ->
  forallb passed_over skipped = true ->
  DirectBg.main st =
  (Blocks,
   Script (WebSocket true (sent (sock st) ++ [Text DirectBg.request]) []
             (closes (sock st)))
          (printed st ++ [(DirectBg.connected_text, [])])).
Proof.
  destruct st as [[conn snt inc cl] out]. simpl.
  intros -> -> Hskip.
  assert (Hwait : forall s0 out0,
    DirectBg.wait_reply (S (length (Text <$> skipped)))
      (Script (WebSocket true s0 (Text <$> skipped) cl) out0)
    = (Blocks, Script (WebSocket true s0 [] cl) out0)).
  { intros s0 out0.
    apply (wait_reply_starves skipped); simpl; try done.
    rewrite length_fmap. lia. }
  unfold DirectBg.main, bind at 1 2 3 4, create_connection, print, on_sock,
    SendSequence.send. cbn -[DirectBg.wait_reply length].
  by rewrite Hwait.
Qed.

Lemma direct_bg_blocks_without_reply_witness :
  DirectBg.main (Script (WebSocket true [] [Text page_event; reply 2] 0) [])
  = (Blocks,
     Script (WebSocket true ([] ++ [Text DirectBg.request]) [] 0)
       ([] ++ [(DirectBg.connected_text, [])])).
Proof.
  apply (direct_bg_blocks_without_reply
           (Script (WebSocket true [] [Text page_event; reply 2] 0) [])
           [page_event; JObj [("id", JNum 2); ("result", JObj [])]]);
    reflexivity.
Defined.

(** X13. An error reply to request 1 (an object with id 1 and no [result],
    as the protocol sends for a failed evaluation) makes cdp-direct-bg.py
    raise [KeyError('result')]; a reply whose inner result has no [value]
    is dumped as JSON instead. In the first case the connection is left
    open, in the second it is closed once. *)
Theorem direct_bg_reply_without_value
    (st : script) (reply : pydict) (rest : list frame) :
  connected (sock st) = true ->
  incoming (sock st) = Text (JObj reply) :: rest ->
  py_eq (match dict_get "id" reply with Some i => i | None => JNull end)
        (JNum 1) = true ->
  let sent' := sent (sock st) ++ [Text DirectBg.request] in
  let out' := printed st ++ [(DirectBg.connected_text, [])] in
  (dict_get "result" reply = None ->
   DirectBg.main st =
   (Raises (KeyError "result"),
    Script (WebSocket true sent' rest (closes (sock st))) out')) /\
  (forall result inner,
     dict_get "result" reply = Some (JObj result) ->
     dict_get "result" result = Some (JObj inner) ->
     dict_get "value" inner = None ->
     DirectBg.main st =
     (Returns tt,
      Script (WebSocket false sent' rest (S (closes (sock st))))
        (out' ++ [("{json.dumps(msg, indent=2)}", [JObj reply])]))).
Proof.
  destruct st as [[conn snt inc cl] out]. simpl.
  intros -> -> Hid.
  assert (Hwait : forall s0 out0,
    DirectBg.wait_reply (S (length (Text (JObj reply) :: rest)))
      (Script (WebSocket true s0 (Text (JObj reply) :: rest) cl) out0)
    = (Returns (JObj reply), Script (WebSocket true s0 rest cl) out0)).
  { intros s0 out0.
    apply (wait_reply_skips (JObj reply) reply rest []); simpl;
      try done; lia. }
  split.
  - intros Hres.
    unfold DirectBg.main, bind at 1 2 3 4, create_connection, print, on_sock,
      SendSequence.send. cbn -[DirectBg.wait_reply length].
    rewrite Hwait.
    unfold DirectBg.report, bind, eval, subscript. by rewrite Hres.
  - intros result inner Hres Hinner Hvalue.
    unfold DirectBg.main, bind at 1 2 3 4, create_connection, print, on_sock,
      SendSequence.send. cbn -[DirectBg.wait_reply length].
    rewrite Hwait.
    unfold DirectBg.report, bind, eval, subscript, py_in, print, on_sock,
      sock_close.
    rewrite Hres. simpl. rewrite Hinner. simpl. rewrite Hvalue. simpl.
    by rewrite <- !app_assoc.
Qed.

Lemma direct_bg_reply_without_value_witness :
  DirectBg.main
    (Script (WebSocket true []
               [Text (JObj [("id", JNum 1);
                            ("error", JObj [("code", JNum (-32000))])])] 0) [])
  = (Raises (KeyError "result"),
     Script (WebSocket true ([] ++ [Text DirectBg.request]) [] 0)
       ([] ++ [(DirectBg.connected_text, [])])).
Proof.
  apply (direct_bg_reply_without_value
           (Script (WebSocket true []
               [Text (JObj [("id", JNum 1);
                            ("error", JObj [("code", JNum (-32000))])])] 0) [])
           [("id", JNum 1); ("error", JObj [("code", JNum (-32000))])] []);
    reflexivity.
Defined.

(** ** Target discovery and the console logger *)

Section Targets.

Lemma py_iter_text :
  py_iter (JStr "a←é") = Returns [JStr "a"; JStr "←"; JStr "é"].
Proof. reflexivity. Qed.

Lemma select_by_type_filter (accept : json -> bool) (ts : list json) :
  select_by_type accept ts =
  if forallb is_object ts
  then Returns (List.filter (fun t => accept (type_field t)) ts)
  else Raises AttributeError.
Proof.
  induction ts as [|t ts IH]; [done|].
  simpl. destruct t as [| | | | |kvs]; try done. simpl.
  rewrite IH. destruct (forallb is_object ts); [|done].
  by destruct (dict_get "type" kvs).
Qed.

Lemma filter_ext_bool {A} (f g : A -> bool) (l : list A) :
  (forall x, f x = g x) -> List.filter f l = List.filter g l.
Proof.
  intros H. induction l as [|x l IH]; [done|]. simpl. by rewrite H, IH.
Qed.

Lemma is_page_type_field t :
  py_eq (type_field t) (JStr "page") = is_page t.
Proof.
  destruct t as [| | | | |kvs]; try done. simpl.
  destruct (dict_get "type" kvs) as [[| | | | |]|]; try done.
Qed.

Lemma is_page_or_background_type_field t :
  existsb (fun item => py_eq item (type_field t))
          [JStr "page"; JStr "background_page"]
  = is_page_or_background t.
Proof.
  destruct t as [| | | | |kvs]; try done. cbn -[String.eqb].
  destruct (dict_get "type" kvs) as [[| | |type| |]|]; try done.
  cbn -[String.eqb]. rewrite orb_false_r.
  by rewrite (String.eqb_sym "page"), (String.eqb_sym "background_page").
Qed.

Lemma filter_sublist {A} (f g : A -> bool) (l : list A) :
  (forall x, f x = true -> g x = true) ->
  sublist (List.filter f l) (List.filter g l).
Proof.
  intros H. induction l as [|x l IH]; simpl; [constructor|].
  destruct (f x) eqn:Hf.
  - rewrite (H x Hf). by constructor.
  - destruct (g x); [by constructor | done].
Qed.

End Targets.

(** X14. [get_active_tab] of cdp-send-sequence.py returns, in the order of
    the listing, exactly the entries whose [type] is the string "page";
    despite its name it does not single out the active tab. It raises
    [AttributeError] as soon as one entry of the listing is not an object,
    and [TypeError] when the listing is a number, a boolean or null. *)
Theorem get_active_tab_lists_pages (ts : list json) (n : Z) (b : bool) :
  SendSequencePages.get_active_tab (Returns (JArr ts)) =
  (if forallb is_object ts
   then Returns (JArr (List.filter is_page ts))
   else Raises AttributeError) /\
  SendSequencePages.get_active_tab (Returns (JNum n)) = Raises TypeError /\
  SendSequencePages.get_active_tab (Returns (JBool b)) = Raises TypeError /\
  SendSequencePages.get_active_tab (Returns JNull) = Raises TypeError.
Proof.
  split; [|done].
  unfold SendSequencePages.get_active_tab. simpl.
  rewrite select_by_type_filter.
  destruct (forallb is_object ts); [|done].
  do 2 f_equal. apply filter_ext_bool. intros t. apply is_page_type_field.
Qed.

(** X15. The console logger listens to the entries of the listing whose
    [type] is "page" or "background_page", in listing order, and fails with
    [AttributeError] on a listing with an entry that is not an object. Every
    page cdp-send-sequence.py lists is among them, in the same order. *)
Theorem logger_selects_pages_and_background (ts : list json) :
  ConsoleLogger.select_targets (JArr ts) =
  (if forallb is_object ts
   then Returns (List.filter is_page_or_background ts)
   else Raises AttributeError) /\
  sublist (List.filter is_page ts) (List.filter is_page_or_background ts).
Proof.
  split.
  - unfold ConsoleLogger.select_targets. simpl.
    rewrite select_by_type_filter.
    destruct (forallb is_object ts); [|done].
    f_equal. apply filter_ext_bool. intros t.
    apply is_page_or_background_type_field.
  - apply filter_sublist. intros [| | | | |kvs]; try done.
    cbn -[String.eqb].
    destruct (dict_get "type" kvs) as [[| | |type| |]|]; try done.
    by intros ->.
Qed.

Section LoggerFacts.

Variable py_str : json -> string.
Variable upper : string -> string.



End LoggerFacts.

(** X16. [on_message] of the console logger leaves the log file and the
    console untouched, and raises nothing, for every message that is an
    object whose [method] is neither "Runtime.consoleAPICalled" nor
    "Runtime.exceptionThrown": command replies (no method) and all other
    events are dropped. A message that is not JSON raises
    [JSONDecodeError], also without logging. *)
Theorem on_message_ignores_other_messages
    (py_str : json -> string) (upper : string -> string)
    (title : json) (data : pydict) (raw : string)
    (st : ConsoleLogger.logger) :
  unhandled_method data = true ->
  ConsoleLogger.on_message py_str upper title (Text (JObj data)) st
  = (Returns tt, st) /\
  ConsoleLogger.on_message py_str upper title (Garbled raw) st
  = (Raises JSONDecodeError, st).
Proof.
  unfold unhandled_method. intros H. apply andb_prop in H as [H1 H2].
  apply negb_true_iff in H1, H2.
  split; [|done].
  unfold ConsoleLogger.on_message, bind, eval, ret. simpl.
  by rewrite H1, H2.
Qed.

Lemma on_message_ignores_other_messages_witness :
  let st := ConsoleLogger.Logger [] [] (fun _ => "2025-01-01T00:00:00") 0 in
  ConsoleLogger.on_message (fun _ => "") (fun s => s) (JStr "Google")
    (Text (JObj [("id", JNum 1); ("result", JObj [])])) st
  = (Returns tt, st).
Proof.
  intros st.
  apply (on_message_ignores_other_messages (fun _ => "") (fun s => s)
           (JStr "Google") [("id", JNum 1); ("result", JObj [])] "" st).
  reflexivity.
Defined.


(** For an uncaught exception, [on_message] appends one line of type
    "exception" (in upper case) whose message is the [text] of the exception
    details, or the text "Unknown error" when the details have none. *)
Lemma on_message_logs_exception
    (py_str : json -> string) (upper : string -> string)
    (title : json) (details : pydict) (st : ConsoleLogger.logger) :
  let error_msg :=
    match dict_get "text" details with
    | Some text => text
    | None => JStr "Unknown error"
    end in
  ConsoleLogger.on_message py_str upper title
    (Text (exception_event details)) st
  = (Returns tt,
     ConsoleLogger.Logger
       (ConsoleLogger.log_file st
        ++ [ConsoleLogger.LogLine
              (ConsoleLogger.clock st (ConsoleLogger.ticks st)) title
              (upper "exception") error_msg])
       (ConsoleLogger.console st
        ++ [("[{title}] EXCEPTION: {error_msg}", [title; error_msg])])
       (ConsoleLogger.clock st) (S (ConsoleLogger.ticks st))).
Proof. reflexivity. Qed.

(** ** The filter-button report (cdp-inspect-buttons-v2.py) *)

Section Buttons.

Lemma py_join_strings (sep : string) (items : list string) :
  py_join sep (JStr <$> items) =
  Returns ((fix joined (items : list string) : string :=
              match items with
              | [] => ""
              | [item] => item
              | item :: rest => item +:+ sep +:+ joined rest
              end) items).
Proof.
  induction items as [|item items IH]; [done|].
  rewrite fmap_cons. cbn [py_join]. rewrite IH. by destruct items.
Qed.

Lemma print_buttons_prints (bs : list button) : forall i st,
  InspectButtonsV2.print_buttons i (button_json <$> bs) st =
  (Returns tt, Script (sock st) (printed st ++ button_lines i bs)).
Proof.
  induction bs as [|b bs IH]; intros i [s out].
  - simpl. unfold ret. by rewrite app_nil_r.
  - rewrite fmap_cons. cbn [InspectButtonsV2.print_buttons button_lines].
    unfold bind at 1 2 3 4 5 6 7, eval, print, button_json, subscript, py_iter.
    cbn -[InspectButtonsV2.print_buttons button_lines py_join String.append].
    rewrite (py_join_strings ", " (b_classes b)).
    unfold bind, print.
    cbn -[InspectButtonsV2.print_buttons button_lines String.append].
    rewrite IH.
    cbn -[button_lines String.append]. by rewrite <- !app_assoc.
Qed.

Lemma selected_of_buttons (bs : list button) :
  InspectButtonsV2.selected_of (button_json <$> bs) =
  Returns (button_json <$> List.filter (fun b => truthy (b_selected b)) bs).
Proof.
  induction bs as [|b bs IH]; [done|].
  rewrite fmap_cons. cbn [InspectButtonsV2.selected_of List.filter].
  rewrite IH. unfold button_json at 1, subscript. simpl.
  by destruct (truthy (b_selected b)).
Qed.

Lemma filter_head_find {A} (f : A -> bool) (l : list A) :
  List.find f l = head (List.filter f l).
Proof.
  induction l as [|x l IH]; [done|]. simpl. by destruct (f x).
Qed.

End Buttons.

(** X18. Given the reply that carries the buttons, cdp-inspect-buttons-v2.py
    lists every button in the order received, numbered from 1, and names as
    the selected button the first one in that order whose [isSelected] is
    truthy (with its colour), or says that it could not determine one when
    no button is marked. It then closes the connection once and leaves
    later frames unread. *)
Theorem inspect_buttons_reports_first_selected
    (js_code : string) (st : script) (count color_counts : json)
    (bs : list button) (rest : list frame) :
  connected (sock st) = true ->
  incoming (sock st) = Text (buttons_reply count bs color_counts) :: rest ->
  InspectButtonsV2.main js_code st =
  (Returns tt,
   Script
     (WebSocket false
        (sent (sock st) ++ [Text (InspectButtonsV2.command js_code)]) rest
        (S (closes (sock st))))
     (printed st ++ v2_opening
      ++ [(InspectButtonsV2.rule, []);
          ("THE 5 FILTER BUTTONS (found {result['count']}):", [count]);
          (InspectButtonsV2.rule, [])]
      ++ button_lines 1 bs
      ++ [(nl +:+ InspectButtonsV2.rule, []); ("ANSWER:", []);
          (InspectButtonsV2.rule, [])]
      ++ match List.find (fun b => truthy (b_selected b)) bs with
         | Some b =>
             [(nl +:+ "✓ The selected button is: '{selected[0]['text']}'",
               [b_text b]);
              ("  Detected by: Different color ({selected[0]['styles']['color']})",
               [b_color b])]
         | None =>
             [(nl +:+ "⚠ Could not determine which button is selected", [])]
         end
      ++ [(nl +:+ "Color analysis: {result['colorCounts']}", [color_counts])]
      ++ v2_closing)).
Proof.
  destruct st as [[conn snt inc cl] out]. simpl. intros -> ->.
  unfold InspectButtonsV2.main, bind at 1 2 3 4 5 6 7 8, create_connection,
    print, on_sock, SendSequence.send, SendSequence.recv, eval.
  cbn -[InspectButtonsV2.report String.append].
  unfold bind at 1, InspectButtonsV2.report, bind at 1 2 3 4 5 6 7 8 9, eval,
    print, subscript, py_iter.
  cbn -[InspectButtonsV2.print_buttons InspectButtonsV2.selected_of
        String.append button_lines].
  unfold bind at 1. rewrite print_buttons_prints.
  unfold bind at 1 2 3 4 5 6, print, eval.
  cbn -[InspectButtonsV2.selected_of String.append button_lines].
  rewrite selected_of_buttons, filter_head_find.
  unfold bind at 1, eval.
  destruct (List.filter (fun b => truthy (b_selected b)) bs) as [|b chosen];
    unfold bind, print, eval, on_sock, sock_close, subscript, v2_opening,
      v2_closing;
    cbn -[String.append button_lines];
    rewrite <- ?app_assoc; reflexivity.
Qed.

Lemma inspect_buttons_reports_first_selected_witness :
  let top := Button (JStr "top 10") ["filtertop"] (JNum 12) (JNum 900)
               (JStr "rgb(0, 0, 0)") (JStr "400") (JStr "1") (JStr "none")
               (JBool false) in
  let all := Button (JStr "all") ["filtertop"; "on"] (JNum 12) (JNum 960)
               (JStr "rgb(255, 255, 255)") (JStr "400") (JStr "1")
               (JStr "none") (JBool true) in
  let st := Script (WebSocket true []
                      [Text (buttons_reply (JNum 2) [top; all] JNull)] 0) [] in
  fst (InspectButtonsV2.main "js" st) = Returns tt /\
  closes (sock (snd (InspectButtonsV2.main "js" st))) = 1%nat.
Proof.
  intros top all st.
  rewrite (inspect_buttons_reports_first_selected "js" st (JNum 2) JNull
             [top; all] [] eq_refl eq_refl).
  split; reflexivity.
Defined.

(** X19. When the reply carries no [result] (an error reply), the script
    skips the report, still closes the connection once, and prints only
    its opening and closing lines; when the reply is not JSON it raises
    [JSONDecodeError] and the connection stays open. *)
Theorem inspect_buttons_without_result
    (js_code : string) (st : script) (reply : pydict) (raw : string)
    (rest : list frame) :
  connected (sock st) = true ->
  dict_get "result" reply = None ->
  let sent' := sent (sock st) ++ [Text (InspectButtonsV2.command js_code)] in
  (incoming (sock st) = Text (JObj reply) :: rest ->
   InspectButtonsV2.main js_code st =
   (Returns tt,
    Script (WebSocket false sent' rest (S (closes (sock st))))
           (printed st ++ v2_opening ++ v2_closing))) /\
  (incoming (sock st) = Garbled raw :: rest ->
   InspectButtonsV2.main js_code st =
   (Raises JSONDecodeError,
    Script (WebSocket true sent' rest (closes (sock st)))
           (printed st ++ v2_opening))).
Proof.
  destruct st as [[conn snt inc cl] out]. simpl. intros -> Hres.
  split; intros ->;
    unfold InspectButtonsV2.main, bind, create_connection, print, on_sock,
      SendSequence.send, SendSequence.recv, eval, py_in, v2_opening,
      v2_closing, sock_close, ret;
    cbn -[String.append]; rewrite ?Hres; cbn -[String.append];
    rewrite <- ?app_assoc; reflexivity.
Qed.

Lemma inspect_buttons_without_result_witness :
  let st := Script (WebSocket true []
                      [Text (JObj [("id", JNum 1);
                                   ("error", JObj [("code", JNum (-32000))])])]
                      0) [] in
  InspectButtonsV2.main "js" st =
  (Returns tt,
   Script (WebSocket false ([] ++ [Text (InspectButtonsV2.command "js")]) [] 1)
          ([] ++ v2_opening ++ v2_closing)).
Proof.
  intros st.
  apply (inspect_buttons_without_result "js" st
           [("id", JNum 1); ("error", JObj [("code", JNum (-32000))])] "" []);
    reflexivity.
Defined.
